(** * Video reference resolution and download pipeline

    A shallow embedding of the request handlers of the video parser
    service and of the media merge helper:

    - [api.py]: [make_response], [validate_timestamp],
      [validate_request_headers], [parse_video], [download_video];
    - [src/api/parse.py] and [src/api/download.py]: the Flask blueprints
      [parse] and [download];
    - [app.py]: [VideoClient.merge_video_audio];
    - [test_client/client_bilibili.py]: [merge_video_audio].

    Python values are modelled as follows.  A [str] is a [string]; an
    [Optional[str]] is an [option string]; a JSON object is a finite map
    from keys to nullable strings.  The local file system is the set of
    paths that exist.  Code that touches the file system or the network is
    a tree of operations ([prog]) whose answers come from the world; the
    same tree is run alone ([run]) or interleaved with another request
    ([interleave]). *)

From stdpp Require Import gmap strings list.
From Stdlib Require Import ZArith Lia Ascii.

Open Scope Z_scope.

(** ** Python values *)

Abbreviation pydict := (gmap string (option string)).

(** Truth value of a [str]: the empty string is false. *)
Definition str_truthy (s : string) : bool := negb (String.eqb s "").

(** Truth value of an [Optional[str]]: [None] and [""] are false. *)
Definition truthy (o : option string) : bool :=
  match o with
  | Some s => str_truthy s
  | None => false
  end.

(** [needle in haystack] on strings. *)
Definition str_contains (needle haystack : string) : bool :=
  bool_decide (is_Some (String.index 0 needle haystack)).

(** [a or b] on strings. *)
Definition py_or (a : option string) (b : string) : string :=
  match a with
  | Some s => if str_truthy s then s else b
  | None => b
  end.

(** [s.startswith(p)] and [s.endswith(p)]. *)
Definition startswith (p s : string) : bool := String.prefix p s.

Definition endswith (p s : string) : bool :=
  String.prefix (String.rev p) (String.rev s).

(** [os.path.join(a, b)] of [posixpath]: an absolute second component
    replaces the first. *)
Definition os_path_join (a b : string) : string :=
  if startswith "/" b then b
  else if negb (str_truthy a) || endswith "/" a then a +:+ b
  else a +:+ "/" +:+ b.

(** ** Exceptions

    The exceptions the handlers can meet, with the class tests of their
    [except] clauses.  All of [requests.exceptions] derives from
    [RequestException], which derives from the builtin [IOError]
    ([OSError]); [FileNotFoundError] is an [OSError] as well. *)

Inductive exn : Type :=
| HTTPError               (* requests: raise_for_status on 4xx / 5xx *)
| ConnectionError         (* requests.exceptions.ConnectionError *)
| Timeout                 (* requests.exceptions.Timeout *)
| RetryError              (* requests: retries of the adapter exhausted *)
| ChunkedEncodingError    (* requests: the body broke off mid-stream *)
| IOError                 (* builtin OSError: disk full, permissions *)
| FileNotFoundError       (* builtin: missing path or missing executable *)
| ValueError
| RuntimeError.

Definition isinstance_RequestException (e : exn) : bool :=
  match e with
  | HTTPError | ConnectionError | Timeout | RetryError
  | ChunkedEncodingError => true
  | _ => false
  end.

Definition isinstance_ConnectionError (e : exn) : bool :=
  match e with ConnectionError => true | _ => false end.

Definition isinstance_ChunkedEncodingError (e : exn) : bool :=
  match e with ChunkedEncodingError => true | _ => false end.

Definition isinstance_IOError (e : exn) : bool :=
  match e with
  | IOError | FileNotFoundError => true
  | _ => isinstance_RequestException e
  end.

Definition isinstance_FileNotFoundError (e : exn) : bool :=
  match e with FileNotFoundError => true | _ => false end.

(** The result of a call that may raise. *)
Inductive outcome (A : Type) : Type :=
| Ok (a : A)
| Raise (e : exn).

Arguments Ok {A} a.
Arguments Raise {A} e.

(** ** Responses *)

Record APIResponse : Type := mkAPIResponse {
  retcode : Z;
  retdesc : string;
  data : option pydict;
  ranking : option pydict;
  succ : bool
}.

(** [make_response] of api.py. *)
Definition make_response (retcode : Z) (retdesc : string)
    (data ranking : option pydict) (succ : bool) : APIResponse :=
  mkAPIResponse retcode retdesc data ranking succ.

Record JSONResponse : Type := mkJSONResponse {
  status_code : Z;
  content : APIResponse
}.

Record ParseRequest : Type := mkParseRequest { text : string }.

Record DownloadRequest : Type := mkDownloadRequest {
  video_url : string;
  video_id : string
}.

(** ** What the handlers import

    The modules [configs.general_constants], [utils.web_fetcher],
    [utils.vigenere_cipher], [utils.common_utils] and
    [src.downloader_factory] are not part of the sources at hand; the
    handlers are embedded over their constants and functions.  The
    helpers of [UrlParser] and [WebFetcher] take and return
    [Optional[str]]. *)

(** A platform extractor once its accessors have been called; the
    accessors never raise.  [get_audio_url = None] is a class without
    that method ([hasattr] is false). *)
Record Downloader : Type := mkDownloader {
  get_title_content : option string;
  get_real_video_url : option string;
  get_cover_photo_url : option string;
  get_audio_url : option (option string)
}.

Class Imports : Type := {
  (** [int(time.time() * 1000)] at the time of the call. *)
  now : Z;
  (** Python's [int(s)]; [None] stands for [ValueError]. *)
  int_of_str : string → option Z;
  (** [VigenereCipher(key).verify_decryption(encrypted, plain)]. *)
  verify_decryption : string → string → string → bool;
  (** [validate_request] of utils.common_utils (Flask blueprints). *)
  validate_request : string → option (APIResponse * Z);
  get_url : string → option string;
  fetch_redirect_url : option string → option string;
  get_domain : option string → option string;
  get_video_id : option string → option string;
  extract_video_address : option string → option string;
  DOMAIN_TO_NAME : gmap string string;
  MINI_PROGRAM_LEGAL_DOMAIN : list string;
  SAVE_VIDEO_PATH : string;
  DOMAIN : option string;
  (** [DownloaderFactory.create_downloader(platform, real_url)]; the last
      argument is the number of instances constructed before this one,
      so that the page fetched may differ from one instance to the next.
      The constructor may raise. *)
  create_downloader : string → option string → nat → outcome Downloader
}.

(** [d.get(key)] and [x in l] for a key that may be [None]. *)
Definition dict_get (d : gmap string string) (key : option string)
    : option string :=
  match key with
  | Some k => d !! k
  | None => None
  end.

Definition py_in (x : option string) (l : list string) : bool :=
  match x with
  | Some s => bool_decide (s ∈ l)
  | None => false
  end.

(** Modelled from the spec: [UrlParser.convert_to_https] of
    utils/web_fetcher.py, which is not among the sources.  The spec has
    [to_https] turn a leading [http://] into [https://] and return an
    already-secure or malformed value unchanged; [None] is returned as
    it is. *)
Definition convert_to_https (url : option string) : option string :=
  match url with
  | Some s =>
      if startswith "http://" s
      then Some ("https://" +:+ String.substring 7 (String.length s - 7) s)
      else Some s
  | None => None
  end.

(** ** Request validation (api.py) *)

Section Validation.

Context `{Imports}.

Definition validate_timestamp (request_timestamp : Z) : bool :=
  let current_timestamp := now in
  let time_window := 5 * 60 * 1000 in
  Z.abs (current_timestamp - request_timestamp) <=? time_window.

Definition validate_request_headers
    (x_timestamp x_gclt_text x_egct_text : string) (args : list string)
    : option APIResponse :=
  let missing_params := filter (λ param, str_truthy param = false) args in
  if negb (bool_decide (missing_params = [])) then
    Some (make_response 400 "Missing parameters in request" None None false)
  else if negb (str_truthy x_timestamp) then
    Some (make_response 400 "Missing timestamp in request" None None false)
  else
    match int_of_str x_timestamp with
    | None =>
        Some (make_response 400 "Invalid timestamp format" None None false)
    | Some ts =>
        if negb (validate_timestamp ts) then
          Some (make_response 400 "Invalid timestamp" None None false)
        else if negb (verify_decryption x_timestamp x_egct_text x_gclt_text)
        then
          Some (make_response 400 "Decryption verification failed"
                  None None false)
        else None
    end.

End Validation.

(** ** The world of a request: file system, network, log of effects *)

(** What [session.get(url, stream=True)] hands back: the status line and
    the chunks [iter_content] yields, after which the iterator either is
    exhausted or raises. *)
Record HttpResponse : Type := mkHttpResponse {
  status : Z;
  iter_content : list string;
  iter_raises : option exn
}.

(** [response.raise_for_status()]. *)
Definition raise_for_status (r : HttpResponse) : option exn :=
  if (400 <=? status r) && (status r <? 600) then Some HTTPError else None.

Inductive Event : Type :=
| EGet (url : string) (headers : gmap string string)
| EOpen (path : string)
| EWrite (path chunk : string)
| ERemove (path : string).

Record World : Type := mkWorld {
  files : gset string;       (* the paths that exist *)
  log : list Event           (* effects so far, latest first *)
}.

(** What the outside answers to one request: the result of its GET (after
    the retries of the session), whether opening the target fails, and
    whether the n-th write fails. *)
Record IO : Type := mkIO {
  io_get : outcome HttpResponse;
  io_open : option exn;
  io_write : nat → option exn
}.

(** A handler body: a tree of file-system and network operations, each
    continued with the answer of the world. *)
Inductive prog (A : Type) : Type :=
| Ret (a : A)
| Throw (e : exn)
| PathExists (path : string) (k : bool → prog A)
| SessionGet (url : string) (headers : gmap string string)
             (k : outcome HttpResponse → prog A)
| OpenWb (path : string) (k : option exn → prog A)
| FWrite (path chunk : string) (k : option exn → prog A)
| OsRemove (path : string) (k : option exn → prog A).

Arguments Ret {A} a.
Arguments Throw {A} e.
Arguments PathExists {A} path k.
Arguments SessionGet {A} url headers k.
Arguments OpenWb {A} path k.
Arguments FWrite {A} path chunk k.
Arguments OsRemove {A} path k.

(** [try: p except Exception as e: h e]. *)
Fixpoint try_except {A : Type} (p : prog A) (h : exn → prog A) : prog A :=
  match p with
  | Ret a => Ret a
  | Throw e => h e
  | PathExists path k => PathExists path (λ b, try_except (k b) h)
  | SessionGet url headers k =>
      SessionGet url headers (λ r, try_except (k r) h)
  | OpenWb path k => OpenWb path (λ r, try_except (k r) h)
  | FWrite path chunk k => FWrite path chunk (λ r, try_except (k r) h)
  | OsRemove path k => OsRemove path (λ r, try_except (k r) h)
  end.


(** A request running alone, to its end. *)
Fixpoint run {A : Type} (io : IO) (n : nat) (p : prog A) (w : World)
    : outcome A * World :=
  match p with
  | Ret a => (Ok a, w)
  | Throw e => (Raise e, w)
  | PathExists path k => run io n (k (bool_decide (path ∈ files w))) w
  | SessionGet url headers k =>
      run io n (k (io_get io))
        (mkWorld (files w) (EGet url headers :: log w))
  | OpenWb path k =>
      match io_open io with
      | Some e => run io n (k (Some e)) w
      | None =>
          run io n (k None)
            (mkWorld ({[path]} ∪ files w) (EOpen path :: log w))
      end
  | FWrite path chunk k =>
      match io_write io n with
      | Some e => run io (S n) (k (Some e)) w
      | None =>
          run io (S n) (k None)
            (mkWorld (files w) (EWrite path chunk :: log w))
      end
  | OsRemove path k =>
      if bool_decide (path ∈ files w) then
        run io n (k None)
          (mkWorld (files w ∖ {[path]}) (ERemove path :: log w))
      else run io n (k (Some FileNotFoundError)) w
  end.

Definition is_get (ev : Event) : bool :=
  match ev with EGet _ _ => true | _ => false end.


(** Number of calls of [session.get] (one call can be several requests
    on the wire: the adapter of the session retries), and of file
    creations and writes. *)
Definition fetches (w : World) : nat :=
  length (filter (λ ev, is_get ev = true) (log w)).

(** ** The download handlers *)

Section Download.

Context `{Imports}.

Definition user_agent : string :=
  "Mozilla/5.0 (Windows NT 10.0; Win64; x64) AppleWebKit/537.36 (KHTML, like Gecko) Chrome/123.0.0.0 Safari/537.36".

(** The request headers of the server-side download. *)
Definition download_headers (request_video_url : string)
    : gmap string string :=
  let headers : gmap string string :=
    <["Referer" := "https://www.pearvideo.com/"]>
      (<["User-Agent" := user_agent]> ∅) in
  if str_contains "pearvideo.com" request_video_url
  then <["Referer" := "https://www.pearvideo.com/"]> headers
  else headers.

(** The body of [with open(video_path, 'wb') as f], once the file is
    open: [for chunk in response.iter_content(...): if chunk:
    f.write(chunk)].  [k] receives the exception that left the block,
    if any. *)
Fixpoint save_chunks {A : Type} (video_path : string)
    (chunks : list string) (raises : option exn)
    (k : option exn → prog A) : prog A :=
  match chunks with
  | [] => k raises
  | chunk :: rest =>
      if str_truthy chunk then
        FWrite video_path chunk (λ r,
          match r with
          | Some e => k (Some e)
          | None => save_chunks video_path rest raises k
          end)
      else save_chunks video_path rest raises k
  end.

Definition ok_data (download_url : string) : option pydict :=
  Some {[ "download_url" := Some download_url ]}.

(** The response of both download-failure handlers. *)
Definition fallback_response (request_video_url : string) : JSONResponse :=
  mkJSONResponse 200
    (make_response 200 "服务器下载失败，返回原始链接"
       (ok_data request_video_url) None true).

Definition success_response (download_url : string) : JSONResponse :=
  mkJSONResponse 200
    (make_response 200 "成功" (ok_data download_url) None true).

Definition error_response : JSONResponse :=
  mkJSONResponse 500
    (make_response 500 "功能太火爆啦，请稍后再试" None None false).

(** The statements of [download_video] inside its outer [try]. *)
Definition download_video_body (body : DownloadRequest)
    (x_timestamp x_gclt_text x_egct_text wx_open_id : string)
    : prog JSONResponse :=
  let request_video_url := video_url body in
  let request_video_id := video_id body in
  match validate_request_headers x_timestamp x_gclt_text x_egct_text
          [request_video_url] with
  | Some validation_error => Ret (mkJSONResponse 400 validation_error)
  | None =>
    let domain := get_domain (Some request_video_url) in
    if py_in domain MINI_PROGRAM_LEGAL_DOMAIN then
      Ret (success_response request_video_url)
    else
      let video_filename := request_video_id +:+ ".mp4" in
      let video_path := os_path_join SAVE_VIDEO_PATH video_filename in
      let current_domain := py_or DOMAIN "http://localhost:5001" in
      let download_url :=
        current_domain +:+ "/static/videos/" +:+ video_filename in
      let on_save_error (e : exn) : prog JSONResponse :=
        if isinstance_ChunkedEncodingError e || isinstance_IOError e then
          PathExists video_path (λ still_there,
            if still_there then
              OsRemove video_path (λ r,
                match r with
                | Some e' => Throw e'
                | None => Ret (fallback_response request_video_url)
                end)
            else Ret (fallback_response request_video_url))
        else Throw e in
      PathExists video_path (λ present,
        if negb present then
          SessionGet request_video_url (download_headers request_video_url)
            (λ r,
              let checked :=
                match r with
                | Ok response =>
                    match raise_for_status response with
                    | Some e => Raise e
                    | None => Ok response
                    end
                | Raise e => Raise e
                end in
              match checked with
              | Raise e =>
                  if isinstance_RequestException e
                     || isinstance_ConnectionError e
                  then Ret (fallback_response request_video_url)
                  else Throw e
              | Ok response =>
                  OpenWb video_path (λ o,
                    match o with
                    | Some e => on_save_error e
                    | None =>
                        save_chunks video_path (iter_content response)
                          (iter_raises response)
                          (λ o',
                            match o' with
                            | Some e => on_save_error e
                            | None => Ret (success_response download_url)
                            end)
                    end)
              end)
        else Ret (success_response download_url))
  end.

(** [download_video] of api.py. *)
Definition download_video (body : DownloadRequest)
    (x_timestamp x_gclt_text x_egct_text wx_open_id : string)
    : prog JSONResponse :=
  try_except
    (download_video_body body x_timestamp x_gclt_text x_egct_text
       wx_open_id)
    (λ e, Ret error_response).

(** The path and the URL under which a video id is kept. *)
Definition target_path (request_video_id : string) : string :=
  os_path_join SAVE_VIDEO_PATH (request_video_id +:+ ".mp4").

Definition local_url (request_video_id : string) : string :=
  py_or DOMAIN "http://localhost:5001" +:+ "/static/videos/"
    +:+ (request_video_id +:+ ".mp4").

End Download.

(** ** The parse handlers

    The handlers construct extractor instances.  The number of instances
    constructed so far is the state of the extraction: a handler takes
    the count at the time of the request and returns the count it
    leaves with its response. *)

Section Parse.

Context `{Imports}.

(** The local variables the extraction assigns. *)
Record Locals : Type := mkLocals {
  l_downloader : option Downloader;
  l_title : option string;
  l_video_url : option string;
  l_cover_url : option string
}.

Definition no_locals : Locals := mkLocals None None None None.

(** One extraction: construct an instance and call its accessors. *)
Definition extract_once (platform : string) (real_url : option string)
    (constructed : nat) : outcome Locals :=
  match create_downloader platform real_url constructed with
  | Raise e => Raise e
  | Ok downloader =>
      Ok (mkLocals (Some downloader) (get_title_content downloader)
            (get_real_video_url downloader)
            (get_cover_photo_url downloader))
  end.

(** [while attempts < max_attempts: ...] with [remaining] standing for
    [max_attempts - attempts]; [vars] holds the values assigned by the
    previous iteration.  Returns the locals after the loop and the
    number of instances constructed so far. *)
Fixpoint retry_loop (remaining : nat) (platform : string)
    (real_url : option string) (vars : Locals) (constructed : nat)
    : outcome Locals * nat :=
  match remaining with
  | O => (Ok vars, constructed)
  | S remaining' =>
      match extract_once platform real_url constructed with
      | Raise e => (Raise e, constructed)
      | Ok vars' =>
          if truthy (l_video_url vars') then (Ok vars', S constructed)
          else retry_loop remaining' platform real_url vars'
                 (S constructed)
      end
  end.

Definition max_attempts : nat := 5.

(** Lines 217-239 of api.py: the extraction for a recognized platform. *)
Definition extract (platform : string) (real_url : option string)
    (constructed : nat) : outcome Locals * nat :=
  if String.eqb platform "小红书" then
    retry_loop max_attempts platform real_url no_locals constructed
  else
    match extract_once platform real_url constructed with
    | Raise e => (Raise e, constructed)
    | Ok vars => (Ok vars, S constructed)
    end.

(** The five keys every successful parse carries. *)
Definition base_data_dict (video_id : option string) (platform : string)
    (vars : Locals) : pydict :=
  <["cover_url" := convert_to_https (l_cover_url vars)]>
    (<["video_url" := convert_to_https (l_video_url vars)]>
       (<["title" := l_title vars]>
          (<["platform" := Some platform]>
             (<["video_id" := video_id]> ∅)))).

(** The Bilibili extractor also reports an audio track. *)
Definition add_audio_url (platform : string) (vars : Locals)
    (data_dict : pydict) : pydict :=
  if String.eqb platform "哔哩哔哩" then
    match l_downloader vars with
    | Some downloader =>
        match get_audio_url downloader with
        | Some audio_url =>
            if truthy audio_url
            then <["audio_url" := convert_to_https audio_url]> data_dict
            else data_dict
        | None => data_dict
        end
    | None => data_dict
    end
  else data_dict.

Definition no_url_response : JSONResponse :=
  mkJSONResponse 400
    (make_response 400 "未找到有效的视频链接" None None false).

Definition unsupported_response : JSONResponse :=
  mkJSONResponse 400
    (make_response 400 "该链接尚未支持提取" None None false).

Definition parsed_response (data_dict : pydict) : JSONResponse :=
  mkJSONResponse 200 (make_response 200 "成功" (Some data_dict) None true).

(** [redirect_url] of the handlers: the landing URL of the redirect,
    or the extracted URL when the redirect gave nothing. *)
Definition redirect_target (extracted_url : option string)
    : option string :=
  let redirect_url := fetch_redirect_url extracted_url in
  if negb (truthy redirect_url) then extracted_url else redirect_url.

(** The statements of [parse_video] after the URL has been extracted
    and found non-empty; shared with the Flask blueprint, which runs
    them on whatever [get_url] returned. *)
Definition resolve (extracted_url : option string) (constructed : nat)
    : outcome JSONResponse * nat :=
  let redirect_url := redirect_target extracted_url in
  let platform := dict_get DOMAIN_TO_NAME (get_domain redirect_url) in
  let video_id := get_video_id redirect_url in
  let real_url := extract_video_address redirect_url in
  match platform with
  | Some platform =>
      if negb (str_truthy platform)
      then (Ok unsupported_response, constructed)
      else
        match extract platform real_url constructed with
        | (Raise e, constructed') => (Raise e, constructed')
        | (Ok vars, constructed') =>
            let data_dict := base_data_dict video_id platform vars in
            let data_dict := add_audio_url platform vars data_dict in
            (Ok (parsed_response data_dict), constructed')
        end
  | None => (Ok unsupported_response, constructed)
  end.

(** The statements of [parse_video] inside its [try]. *)
Definition parse_video_body (body : ParseRequest)
    (x_timestamp x_gclt_text x_egct_text wx_open_id : string)
    (constructed : nat) : outcome JSONResponse * nat :=
  let text := text body in
  match validate_request_headers x_timestamp x_gclt_text x_egct_text
          [text] with
  | Some validation_error =>
      (Ok (mkJSONResponse 400 validation_error), constructed)
  | None =>
      let extracted_url := get_url text in
      if negb (truthy extracted_url)
      then (Ok no_url_response, constructed)
      else resolve extracted_url constructed
  end.

Definition error_500 : JSONResponse :=
  mkJSONResponse 500
    (make_response 500 "功能太火爆啦，请稍后再试" None None false).

(** [parse_video] of api.py: the response and the number of extractor
    instances constructed. *)
Definition parse_video (body : ParseRequest)
    (x_timestamp x_gclt_text x_egct_text wx_open_id : string)
    (constructed : nat) : JSONResponse * nat :=
  match parse_video_body body x_timestamp x_gclt_text x_egct_text
          wx_open_id constructed with
  | (Ok response, constructed') => (response, constructed')
  | (Raise e, constructed') => (error_500, constructed')
  end.

End Parse.

(** ** The Flask blueprints (src/api/parse.py, src/api/download.py)

    A view returns the pair of a response body and a status, kept here
    as a [JSONResponse].  The JSON body of the request is taken to carry
    its fields as strings. *)

Module Flask.
Section Blueprints.

Context `{Imports}.

Definition reply (r : APIResponse) (st : Z) : JSONResponse :=
  mkJSONResponse st r.

(** [parse] of src/api/parse.py. *)
Definition parse (text wx_open_id : string) (constructed : nat)
    : JSONResponse * nat :=
  match validate_request text with
  | Some (r, st) => (reply r st, constructed)
  | None =>
      let extracted_url := get_url text in
      match resolve extracted_url constructed with
      | (Ok response, constructed') => (response, constructed')
      | (Raise e, constructed') =>
          (reply (make_response 500 "功能太火爆啦，请稍后再试"
                    None None false) 500, constructed')
      end
  end.

(** The statements of [download] inside its [try]. *)
Definition download_body (request_video_url request_video_id
    wx_open_id : string) : prog JSONResponse :=
  match validate_request request_video_url with
  | Some (r, st) => Ret (reply r st)
  | None =>
    let domain := get_domain (Some request_video_url) in
    if py_in domain MINI_PROGRAM_LEGAL_DOMAIN then
      Ret (reply (make_response 200 "成功" (ok_data request_video_url)
                    None true) 200)
    else
      let video_filename := request_video_id +:+ ".mp4" in
      let video_path := os_path_join SAVE_VIDEO_PATH video_filename in
      let current_domain := py_or DOMAIN "http://localhost:5001" in
      let failed :=
        reply (make_response 200 "服务器下载失败，返回原始链接"
                 (ok_data request_video_url) None true) 200 in
      let except_save (e : exn) : prog JSONResponse :=
        if isinstance_ChunkedEncodingError e || isinstance_IOError e then
          PathExists video_path (λ still_there,
            if still_there then
              OsRemove video_path (λ r,
                match r with
                | Some e' => Throw e'
                | None => Ret failed
                end)
            else Ret failed)
        else Throw e in
      PathExists video_path (λ present,
        if negb present then
          SessionGet request_video_url (download_headers request_video_url)
            (λ r,
              let checked :=
                match r with
                | Ok response =>
                    match raise_for_status response with
                    | Some e => Raise e
                    | None => Ok response
                    end
                | Raise e => Raise e
                end in
              match checked with
              | Raise e =>
                  if isinstance_RequestException e
                     || isinstance_ConnectionError e
                  then Ret failed
                  else Throw e
              | Ok response =>
                  OpenWb video_path (λ o,
                    match o with
                    | Some e => except_save e
                    | None =>
                        save_chunks video_path (iter_content response)
                          (iter_raises response)
                          (λ o',
                            match o' with
                            | Some e => except_save e
                            | None =>
                                let download_url :=
                                  current_domain +:+ "/static/videos/"
                                    +:+ video_filename in
                                Ret (reply (make_response 200 "成功"
                                       (ok_data download_url) None true)
                                       200)
                            end)
                    end)
              end)
        else
          let download_url :=
            current_domain +:+ "/static/videos/" +:+ video_filename in
          Ret (reply (make_response 200 "成功" (ok_data download_url)
                        None true) 200))
  end.

(** [download] of src/api/download.py. *)
Definition download (request_video_url request_video_id
    wx_open_id : string) : prog JSONResponse :=
  try_except (download_body request_video_url request_video_id wx_open_id)
    (λ e, Ret (reply (make_response 500 "功能太火爆啦，请稍后再试"
                        None None false) 500)).

End Blueprints.
End Flask.

(** ** Two requests at once

    The Flask server gives each request a thread of its own; the
    operations of two requests interleave in any order.  A schedule
    names, step by step, the request that moves next; a step of a
    request that has returned is idle. *)






Definition download_url_of (r : JSONResponse) : option (option string) :=
  match data (content r) with
  | Some d => d !! "download_url"
  | None => None
  end.

(** ** Merging a video track and an audio track *)

Record CompletedProcess : Type := mkCompletedProcess {
  returncode : Z;
  stderr : string
}.

(** [subprocess.run(cmd, capture_output=True, text=True)]: what the
    command does to the file system and how it ends.  A missing
    executable raises [FileNotFoundError]. *)
Class Subprocess : Type := {
  subprocess_run :
    list string → gset string → outcome CompletedProcess * gset string
}.

(** [os.remove(path)]. *)
Definition os_remove (path : string) (fs : gset string)
    : outcome unit * gset string :=
  if bool_decide (path ∈ fs) then (Ok tt, fs ∖ {[path]})
  else (Raise FileNotFoundError, fs).

(** [os.path.basename(path)]: what follows the last slash. *)
Fixpoint basename_from (path acc : string) : string :=
  match path with
  | EmptyString => acc
  | String c rest =>
      if Ascii.eqb c "/"%char then basename_from rest ""
      else basename_from rest (acc +:+ String c "")
  end.

Definition os_path_basename (path : string) : string :=
  basename_from path "".

Definition ffmpeg_cmd (video_path audio_path output_path : string)
    : list string :=
  [ "ffmpeg"; "-y"; "-i"; video_path; "-i"; audio_path;
    "-c:v"; "copy"; "-c:a"; "aac"; "-strict"; "experimental";
    output_path ].

Module VideoClient.
Section Merge.

Context `{Subprocess}.

Definition not_installed : string := "未安装 ffmpeg，请先安装 ffmpeg".

(** [except FileNotFoundError: return False, ...]. *)
Definition except_FileNotFoundError (e : exn) (fs : gset string)
    : outcome (bool * string) * gset string :=
  if isinstance_FileNotFoundError e then (Ok (false, not_installed), fs)
  else (Raise e, fs).

(** [VideoClient.merge_video_audio] of app.py. *)
Definition merge_video_audio (video_path audio_path output_path : string)
    (fs : gset string) : outcome (bool * string) * gset string :=
  let cmd := ffmpeg_cmd video_path audio_path output_path in
  match subprocess_run cmd fs with
  | (Raise e, fs1) => except_FileNotFoundError e fs1
  | (Ok result, fs1) =>
      if returncode result =? 0 then
        match os_remove video_path fs1 with
        | (Raise e, fs2) => except_FileNotFoundError e fs2
        | (Ok _, fs2) =>
            match os_remove audio_path fs2 with
            | (Raise e, fs3) => except_FileNotFoundError e fs3
            | (Ok _, fs3) => (Ok (true, "合并成功"), fs3)
            end
        end
      else (Ok (false, "合并失败: " +:+ stderr result), fs1)
  end.

End Merge.
End VideoClient.

Module client_bilibili.
Section Merge.

Context `{Subprocess}.

(** What the function has printed and the files that exist. *)
Record Out : Type := mkOut {
  printed : list string;
  fs_after : gset string
}.

Definition except_FileNotFoundError (e : exn) (out : list string)
    (fs : gset string) : outcome bool * Out :=
  if isinstance_FileNotFoundError e then
    (Ok false,
     mkOut (out ++ [ "警告: 未安装ffmpeg，无法合并音视频";
                     "请安装ffmpeg: sudo apt install ffmpeg" ]) fs)
  else (Raise e, mkOut out fs).

(** [merge_video_audio] of test_client/client_bilibili.py. *)
Definition merge_video_audio (video_path audio_path output_path : string)
    (fs : gset string) : outcome bool * Out :=
  let out := [ "正在合并音视频..." ] in
  let cmd := ffmpeg_cmd video_path audio_path output_path in
  match subprocess_run cmd fs with
  | (Raise e, fs1) => except_FileNotFoundError e out fs1
  | (Ok result, fs1) =>
      if returncode result =? 0 then
        let out :=
          out ++ [ "合并完成: " +:+ os_path_basename output_path ] in
        match os_remove video_path fs1 with
        | (Raise e, fs2) => except_FileNotFoundError e out fs2
        | (Ok _, fs2) =>
            match os_remove audio_path fs2 with
            | (Raise e, fs3) => except_FileNotFoundError e out fs3
            | (Ok _, fs3) => (Ok true, mkOut out fs3)
            end
        end
      else
        (Ok false, mkOut (out ++ [ "合并失败: " +:+ stderr result ]) fs1)
  end.

End Merge.
End client_bilibili.


(** ** Auxiliary notions for the statements *)

(** The exception that ends the loop over the chunks of a response, if
    any: the first write that fails, else what the iterator raises. *)
Fixpoint stream_failure (io : IO) (n : nat) (chunks : list string)
    (raises : option exn) : option exn :=
  match chunks with
  | [] => raises
  | chunk :: rest =>
      if str_truthy chunk then
        match io_write io n with
        | Some e => Some e
        | None => stream_failure io (S n) rest raises
        end
      else stream_failure io n rest raises
  end.

(** The exception that ends the saving of a response to disk, if any:
    [open] failing, or the loop over the chunks failing. *)
Definition save_failure (io : IO) (n : nat) (response : HttpResponse)
    : option exn :=
  match io_open io with
  | Some e => Some e
  | None =>
      stream_failure io n (iter_content response) (iter_raises response)
  end.

(** The outcome of [session.get] followed by [raise_for_status]. *)
Definition connect (io : IO) : outcome HttpResponse :=
  match io_get io with
  | Ok response =>
      match raise_for_status response with
      | Some e => Raise e
      | None => Ok response
      end
  | Raise e => Raise e
  end.

(** The classes of the two [except] clauses of the download. *)
Definition connect_error (e : exn) : bool :=
  isinstance_RequestException e || isinstance_ConnectionError e.

Definition save_error (e : exn) : bool :=
  isinstance_ChunkedEncodingError e || isinstance_IOError e.

(** A network and a disk that do not fail. *)
Definition io_ok (response : HttpResponse) : IO :=
  mkIO (Ok response) None (λ _, None).


(** The server-side download both handlers perform for a video URL
    outside the allow-list: the else-branch of [download_video] and of
    [Flask.download], to which the statements below reduce them, cut at
    its operations. *)
Section Stages.

Context `{Imports}.
Variables (request_video_url request_video_id : string).

(** [except (ChunkedEncodingError, IOError) as e]. *)
Definition on_save_error (e : exn) : prog JSONResponse :=
  if isinstance_ChunkedEncodingError e || isinstance_IOError e then
    PathExists (target_path request_video_id) (λ still_there,
      if still_there then
        OsRemove (target_path request_video_id) (λ r,
          match r with
          | Some e' => Throw e'
          | None => Ret (fallback_response request_video_url)
          end)
      else Ret (fallback_response request_video_url))
  else Throw e.

(** After the [with] block. *)
Definition after_save (o : option exn) : prog JSONResponse :=
  match o with
  | Some e => on_save_error e
  | None => Ret (success_response (local_url request_video_id))
  end.

(** After [open(video_path, 'wb')]. *)
Definition after_open (response : HttpResponse) (o : option exn)
    : prog JSONResponse :=
  match o with
  | Some e => on_save_error e
  | None =>
      save_chunks (target_path request_video_id) (iter_content response)
        (iter_raises response) after_save
  end.

(** After [session.get]. *)
Definition after_get (r : outcome HttpResponse) : prog JSONResponse :=
  let checked :=
    match r with
    | Ok response =>
        match raise_for_status response with
        | Some e => Raise e
        | None => Ok response
        end
    | Raise e => Raise e
    end in
  match checked with
  | Raise e =>
      if isinstance_RequestException e || isinstance_ConnectionError e
      then Ret (fallback_response request_video_url)
      else Throw e
  | Ok response =>
      OpenWb (target_path request_video_id) (after_open response)
  end.

(** After [os.path.exists(video_path)]. *)
Definition after_exists (present : bool) : prog JSONResponse :=
  if negb present then
    SessionGet request_video_url (download_headers request_video_url)
      after_get
  else Ret (success_response (local_url request_video_id)).

Definition server_side_download : prog JSONResponse :=
  PathExists (target_path request_video_id) after_exists.

End Stages.

(** The world once the GET of a download has been sent. *)
Definition sent (url : string) (w : World) : World :=
  mkWorld (files w) (EGet url (download_headers url) :: log w).




(** The video_url of a parse response. *)
Definition video_url_of (r : JSONResponse) : option (option string) :=
  match data (content r) with
  | Some d => d !! "video_url"
  | None => None
  end.

(** The locals an extractor instance leaves. *)
Definition locals_of (d : Downloader) : Locals :=
  mkLocals (Some d) (get_title_content d) (get_real_video_url d)
    (get_cover_photo_url d).

(** The extractor constructed as the j-th instance does not raise and
    finds no video: its video_url is null or empty. *)
Definition finds_nothing `{Imports} (platform : string)
    (real_url : option string) (j : nat) : Prop :=
  ∃ d, create_downloader platform real_url j = Ok d
       ∧ truthy (get_real_video_url d) = false.






(** ** A deployment to evaluate the handlers on *)

Module Demo.

Fixpoint until_slash (s : string) : string :=
  match s with
  | EmptyString => EmptyString
  | String c rest =>
      if Ascii.eqb c "/"%char then EmptyString
      else String c (until_slash rest)
  end.

(** The host of an http(s) URL. *)
Definition host (url : option string) : option string :=
  match url with
  | Some s =>
      if startswith "https://" s
      then Some (until_slash (String.substring 8 (String.length s - 8) s))
      else if startswith "http://" s
      then Some (until_slash (String.substring 7 (String.length s - 7) s))
      else None
  | None => None
  end.

Definition last_segment (url : option string) : option string :=
  match url with
  | Some s => Some (os_path_basename s)
  | None => None
  end.

(** [script n] is what constructing the n-th extractor gives. *)
Definition imports (script : nat → outcome Downloader) : Imports := {|
  now := 1700000000000;
  int_of_str := λ s,
    if String.eqb s "1700000000000" then Some 1700000000000 else None;
  verify_decryption := λ _ _ _, true;
  validate_request := λ s,
    if str_truthy s then None
    else Some (make_response 400 "Missing parameters in request"
                 None None false, 400);
  get_url := λ t, if startswith "http" t then Some t else None;
  fetch_redirect_url := λ u, u;
  get_domain := host;
  get_video_id := last_segment;
  extract_video_address := λ u, u;
  DOMAIN_TO_NAME :=
    <["www.xiaohongshu.com" := "小红书"]>
      (<["www.bilibili.com" := "哔哩哔哩"]>
         {[ "www.douyin.com" := "抖音" ]});
  MINI_PROGRAM_LEGAL_DOMAIN := [ "cdn.example.com" ];
  SAVE_VIDEO_PATH := "static/videos";
  DOMAIN := None;
  create_downloader := λ _ _ n, script n
|}.

Definition nothing_found : Downloader :=
  mkDownloader (Some "note") None None None.

Definition found (url : string) : Downloader :=
  mkDownloader (Some "note") (Some url)
    (Some "https://img.example.com/c.jpg") None.

(** An extractor that finds the video on its third construction. *)
Definition third_time (n : nat) : outcome Downloader :=
  match n with
  | 2%nat => Ok (found "http://sns-video-bd.xhscdn.com/k1")
  | _ => Ok nothing_found
  end.

(** An extractor that reports an empty string first, then nothing. *)
Definition empty_first (n : nat) : outcome Downloader :=
  match n with
  | 0%nat => Ok (found "")
  | _ => Ok nothing_found
  end.

Definition never (n : nat) : outcome Downloader := Ok nothing_found.

Definition ts : string := "1700000000000".

Definition xhs : ParseRequest :=
  mkParseRequest "https://www.xiaohongshu.com/explore/68ab2dd1".

Definition other_site : ParseRequest :=
  mkParseRequest "https://www.example.org/watch/42".

Definition remote : DownloadRequest :=
  mkDownloadRequest "https://video.example.net/v/42.mp4" "42".

Definition servable : DownloadRequest :=
  mkDownloadRequest "https://cdn.example.com/v/42.mp4" "42".

Definition empty_world : World := mkWorld ∅ [].


Definition two_chunks : HttpResponse :=
  mkHttpResponse 200 [ "abcd"; "efgh" ] None.

(** A body that breaks off after its first chunk. *)
Definition truncated : HttpResponse :=
  mkHttpResponse 200 [ "abcd" ] (Some ChunkedEncodingError).

(** A tool that merges when both inputs are there, and fails
    otherwise. *)
Definition ffmpeg : Subprocess := {|
  subprocess_run := λ cmd fs,
    match cmd with
    | [ _; _; _; v; _; a; _; _; _; _; _; _; o ] =>
        if bool_decide (v ∈ fs) && bool_decide (a ∈ fs)
        then (Ok (mkCompletedProcess 0 ""), {[o]} ∪ fs)
        else (Ok (mkCompletedProcess 1 "No such file or directory"), fs)
    | _ => (Ok (mkCompletedProcess 1 "usage"), fs)
    end
|}.

(** No such executable. *)
Definition no_ffmpeg : Subprocess := {|
  subprocess_run := λ cmd fs, (Raise FileNotFoundError, fs)
|}.

Definition tracks : gset string := {[ "tmp/v.m4s"; "tmp/a.m4s" ]}.

End Demo.

(** ** Further notions for the statements *)

(** The shape every response of the two FastAPI handlers has: the HTTP
    status is the retcode, one of 200, 400 and 500, and succ and data
    go with status 200. *)
Definition well_formed (r : JSONResponse) : Prop :=
  status_code r = retcode (content r)
  ∧ (status_code r = 200 ∨ status_code r = 400 ∨ status_code r = 500)
  ∧ (succ (content r) = true ↔ status_code r = 200)
  ∧ (is_Some (data (content r)) ↔ status_code r = 200).

(** The landing URL, the platform and the address the extraction of a
    text works on. *)
Definition landing `{Imports} (text : string) : option string :=
  redirect_target (get_url text).

Definition platform_of `{Imports} (text : string) : option string :=
  dict_get DOMAIN_TO_NAME (get_domain (landing text)).

Definition real_url_of `{Imports} (text : string) : option string :=
  extract_video_address (landing text).

(** An extractor whose second construction raises. *)
Definition raises_second (n : nat) : outcome Downloader :=
  match n with
  | 1%nat => Raise RuntimeError
  | _ => Ok Demo.nothing_found
  end.

(** A Bilibili extractor with an audio track. *)
Definition with_audio (n : nat) : outcome Downloader :=
  Ok (mkDownloader (Some "clip") (Some "http://upos.example.com/v.m4s")
        None (Some (Some "http://upos.example.com/a.m4s"))).

Definition bili : ParseRequest :=
  mkParseRequest "https://www.bilibili.com/video/BV1TaqYBcEJc".

(** The keys of the record a successful parse returns. *)
Definition base_keys : list string :=
  [ "video_id"; "platform"; "title"; "video_url"; "cover_url" ].


(** A disk on which the second write fails with an exception that the
    download does not handle. *)
Definition second_write_breaks : IO :=
  mkIO (Ok Demo.two_chunks) None
    (λ n, match n with 1%nat => Some RuntimeError | _ => None end).

(** A body with an empty chunk in the middle. *)
Definition gappy : HttpResponse :=
  mkHttpResponse 200 [ "abcd"; ""; "efgh" ] None.

(** A video id that is an absolute path. *)
Definition absolute : DownloadRequest :=
  mkDownloadRequest "https://video.example.net/v/42.mp4" "/tmp/evil".

(** A text without a link. *)
Definition no_link : ParseRequest := mkParseRequest "hello".

(** A video id with a NUL character, and an [open] that refuses the path
    it gives: Python raises [ValueError] (embedded null byte) before it
    reaches the disk. *)
Definition nul_id : DownloadRequest :=
  mkDownloadRequest "https://video.example.net/v/42.mp4"
    (String Ascii.zero "42").

Definition refusing_open : IO :=
  mkIO (Ok Demo.two_chunks) (Some ValueError) (λ _, None).

(** * Properties *)

(** ** Running a program *)

Lemma run_try_except {A : Type} (io : IO) (p : prog A) (a : A) :
  ∀ n w,
    run io n (try_except p (λ _, Ret a)) w =
    match run io n p w with
    | (Ok r, w') => (Ok r, w')
    | (Raise _, w') => (Ok a, w')
    end.
Proof.
  induction p as [r|e|path k IH|url hs k IH|path k IH|path c k IH|path k IH];
    intros n w; cbn [try_except run];
    repeat match goal with
           | |- context [match ?x with _ => _ end] =>
               lazymatch x with
               | io_open _ => destruct x
               | io_write _ _ => destruct x
               | bool_decide _ => destruct x
               end
           end;
    first [reflexivity | apply IH].
Qed.

(** Saving the chunks creates and removes no path and sends nothing. *)
Lemma run_save_chunks {A : Type} (io : IO) (path : string)
    (raises : option exn) (k : option exn → prog A) (chunks : list string) :
  ∀ n w, ∃ n' w',
    run io n (save_chunks path chunks raises k) w =
      run io n' (k (stream_failure io n chunks raises)) w'
    ∧ files w' = files w
    ∧ fetches w' = fetches w.
Proof.
  induction chunks as [|chunk rest IH]; intros n w;
    cbn [save_chunks stream_failure].
  - by exists n, w.
  - destruct (str_truthy chunk); [|apply IH].
    cbn [run]. destruct (io_write io n) as [e|].
    + by exists (S n), w.
    + destruct (IH (S n) (mkWorld (files w) (EWrite path chunk :: log w)))
        as (n' & w' & Hrun & Hfiles & Hfetch).
      exists n', w'. by rewrite Hrun.
Qed.

Section ServerSideDownload.

Context `{Imports}.
Variables (url id : string).

Let path := target_path id.
Let handler := server_side_download url id.

Lemma core_present io n w :
  path ∈ files w →
  run io n handler w = (Ok (success_response (local_url id)), w).
Proof.
  intros Hin. unfold handler, server_side_download, after_exists.
  cbn [run]. fold path.
  rewrite bool_decide_eq_true_2 by done. done.
Qed.

Ltac enter_download Hout :=
  unfold handler, server_side_download, after_exists, after_get, after_open;
  cbn [run]; fold path;
  rewrite (bool_decide_eq_false_2 _ Hout); cbn [negb run].

Lemma core_connect_fails io n w e :
  path ∉ files w →
  connect io = Raise e →
  run io n handler w =
    if connect_error e then (Ok (fallback_response url), sent url w)
    else (Raise e, sent url w).
Proof.
  intros Hout Hc. enter_download Hout.
  unfold connect in Hc. unfold connect_error.
  destruct (io_get io) as [response|e0];
    [destruct (raise_for_status response)|]; simplify_eq;
    by destruct (_ || _).
Qed.

Lemma run_on_save_error io n w e :
  run io n (on_save_error url id e) w =
  if save_error e then
    (Ok (fallback_response url),
     if bool_decide (path ∈ files w)
     then mkWorld (files w ∖ {[path]}) (ERemove path :: log w)
     else w)
  else (Raise e, w).
Proof.
  unfold save_error, on_save_error. destruct (_ || _); [|done].
  cbn [run]. fold path.
  destruct (bool_decide (path ∈ files w)) eqn:Hb; [|done].
  cbn [run]. fold path. by rewrite Hb.
Qed.

Lemma core_saves io n w response :
  path ∉ files w →
  connect io = Ok response →
  ∃ w',
    fetches w' = S (fetches w) ∧
    match save_failure io n response with
    | None =>
        run io n handler w =
          (Ok (success_response (local_url id)), w')
        ∧ files w' = {[path]} ∪ files w
    | Some e =>
        if save_error e then
          run io n handler w = (Ok (fallback_response url), w')
          ∧ files w' = files w
        else run io n handler w = (Raise e, w')
    end.
Proof.
  intros Hout Hc. enter_download Hout.
  unfold connect in Hc. unfold save_failure.
  destruct (io_get io) as [r|e0]; [|done].
  destruct (raise_for_status r); simplify_eq.
  cbn [run]. destruct (io_open io) as [e|].
  - fold path. rewrite run_on_save_error.
    cbn [files]. rewrite (bool_decide_eq_false_2 _ Hout).
    exists (sent url w). split; [done|]. by destruct (save_error e).
  - fold path.
    match goal with
    | |- context [run io n (save_chunks path ?cs ?rs ?k) ?w0] =>
        destruct (run_save_chunks io path rs k cs n w0)
          as (n' & w' & Hrun & Hfiles & Hfetch)
    end.
    cbn [files] in Hfiles.
    destruct (stream_failure io n _ _) as [e|].
    + rewrite Hrun. unfold after_save. rewrite run_on_save_error, Hfiles.
      rewrite bool_decide_eq_true_2
        by (apply elem_of_union_l, elem_of_singleton; reflexivity).
      destruct (save_error e).
      * eexists. split; [|split; [reflexivity|]].
        -- unfold fetches in *. cbn [log filter]. done.
        -- cbn [files]. apply set_eq. intros x.
           rewrite elem_of_difference, elem_of_union, elem_of_singleton.
           split.
           ++ by intros [[->|Hx] Hne].
           ++ intros Hx. split; [by right|]. by intros ->.
      * by exists w'.
    + rewrite Hrun. unfold after_save. cbn [run]. by exists w'.
Qed.

End ServerSideDownload.

(** Past validation and the allow-list both handlers are the
    server-side download. *)
Lemma download_video_body_unfold `{Imports} (body : DownloadRequest)
    (x_timestamp x_gclt_text x_egct_text wx_open_id : string) :
  validate_request_headers x_timestamp x_gclt_text x_egct_text
    [video_url body] = None →
  py_in (get_domain (Some (video_url body))) MINI_PROGRAM_LEGAL_DOMAIN
    = false →
  download_video_body body x_timestamp x_gclt_text x_egct_text wx_open_id
  = server_side_download (video_url body) (video_id body).
Proof.
  intros Hval Hin. unfold download_video_body. by rewrite Hval, Hin.
Qed.


Section DownloadFacts.

Context `{Imports}.
Variables (body : DownloadRequest)
          (x_timestamp x_gclt_text x_egct_text wx_open_id : string).

Let url := video_url body.
Let path := target_path (video_id body).
Let handler :=
  download_video_body body x_timestamp x_gclt_text x_egct_text wx_open_id.

Hypothesis validated :
  validate_request_headers x_timestamp x_gclt_text x_egct_text
    [video_url body] = None.
Hypothesis not_servable :
  py_in (get_domain (Some (video_url body))) MINI_PROGRAM_LEGAL_DOMAIN
    = false.

Lemma body_present io n w :
  path ∈ files w →
  run io n handler w
  = (Ok (success_response (local_url (video_id body))), w).
Proof.
  unfold handler.
  rewrite (download_video_body_unfold _ _ _ _ _ validated not_servable).
  apply core_present.
Qed.

Lemma body_connect_fails io n w e :
  path ∉ files w →
  connect io = Raise e →
  run io n handler w =
    if connect_error e then (Ok (fallback_response url), sent url w)
    else (Raise e, sent url w).
Proof.
  unfold handler.
  rewrite (download_video_body_unfold _ _ _ _ _ validated not_servable).
  apply core_connect_fails.
Qed.

Lemma body_saves io n w response :
  path ∉ files w →
  connect io = Ok response →
  ∃ w',
    fetches w' = S (fetches w) ∧
    match save_failure io n response with
    | None =>
        run io n handler w =
          (Ok (success_response (local_url (video_id body))), w')
        ∧ files w' = {[path]} ∪ files w
    | Some e =>
        if save_error e then
          run io n handler w = (Ok (fallback_response url), w')
          ∧ files w' = files w
        else run io n handler w = (Raise e, w')
    end.
Proof.
  unfold handler.
  rewrite (download_video_body_unfold _ _ _ _ _ validated not_servable).
  apply core_saves.
Qed.

End DownloadFacts.

Lemma download_url_of_success (u : string) :
  download_url_of (success_response u) = Some (Some u).
Proof.
  unfold download_url_of, success_response, ok_data. cbn.
  apply lookup_singleton_eq.
Qed.

Lemma download_url_of_fallback (u : string) :
  download_url_of (fallback_response u) = Some (Some u).
Proof.
  unfold download_url_of, fallback_response, ok_data. cbn.
  apply lookup_singleton_eq.
Qed.

(** The full handler returns what its body returns, and the catch-all
    response where the body raises. *)
Lemma run_download_video `{Imports} (body : DownloadRequest)
    (x_timestamp x_gclt_text x_egct_text wx_open_id : string)
    (io : IO) (n : nat) (w : World) :
  run io n (download_video body x_timestamp x_gclt_text x_egct_text
              wx_open_id) w =
  match run io n (download_video_body body x_timestamp x_gclt_text
                    x_egct_text wx_open_id) w with
  | (Ok r, w') => (Ok r, w')
  | (Raise _, w') => (Ok error_response, w')
  end.
Proof. apply run_try_except. Qed.

(** C4: a request whose video URL is on the allow-list of directly
    servable domains is a pass-through.  The handler is an immediate
    return of the input URL as [download_url]: it contains no operation
    at all, so that running it sends no GET, writes no file and leaves
    the world as it was. *)
Theorem allow_listed_is_pass_through `{Imports} (body : DownloadRequest)
    (x_timestamp x_gclt_text x_egct_text wx_open_id : string) :
  validate_request_headers x_timestamp x_gclt_text x_egct_text
    [video_url body] = None →
  py_in (get_domain (Some (video_url body))) MINI_PROGRAM_LEGAL_DOMAIN
    = true →
  download_video body x_timestamp x_gclt_text x_egct_text wx_open_id
    = Ret (success_response (video_url body))
  ∧ download_url_of (success_response (video_url body))
    = Some (Some (video_url body))
  ∧ ∀ io n w,
      run io n (download_video body x_timestamp x_gclt_text x_egct_text
                  wx_open_id) w
      = (Ok (success_response (video_url body)), w).
Proof.
  intros Hval Hin.
  assert (download_video body x_timestamp x_gclt_text x_egct_text wx_open_id
          = Ret (success_response (video_url body))) as Heq.
  { unfold download_video, download_video_body. by rewrite Hval, Hin. }
  split; [done|]. split; [apply download_url_of_success|].
  intros io n w. by rewrite Heq.
Qed.

Lemma allow_listed_is_pass_through_witness :
  @download_video (Demo.imports Demo.never) Demo.servable Demo.ts "g" "e"
    "Guest"
    = Ret (success_response "https://cdn.example.com/v/42.mp4")
  ∧ download_url_of (success_response "https://cdn.example.com/v/42.mp4")
    = Some (Some "https://cdn.example.com/v/42.mp4")
  ∧ ∀ io n w,
      run io n (@download_video (Demo.imports Demo.never) Demo.servable
                  Demo.ts "g" "e" "Guest") w
      = (Ok (success_response "https://cdn.example.com/v/42.mp4"), w).
Proof.
  apply (@allow_listed_is_pass_through (Demo.imports Demo.never)
           Demo.servable Demo.ts "g" "e" "Guest"); reflexivity.
Defined.


Lemma error_is_not_success (u : string) : error_response ≠ success_response u.
Proof. unfold error_response, success_response, make_response. congruence. Qed.

(** Every response of the body is one of three. *)
Lemma download_video_body_returns `{Imports} (body : DownloadRequest)
    (x_timestamp x_gclt_text x_egct_text wx_open_id : string)
    (io : IO) (n : nat) (w w' : World) (r : JSONResponse) :
  validate_request_headers x_timestamp x_gclt_text x_egct_text
    [video_url body] = None →
  run io n (download_video_body body x_timestamp x_gclt_text x_egct_text
              wx_open_id) w = (Ok r, w') →
  (py_in (get_domain (Some (video_url body))) MINI_PROGRAM_LEGAL_DOMAIN
     = true
   ∧ r = success_response (video_url body) ∧ w' = w)
  ∨ (r = success_response (local_url (video_id body))
     ∧ target_path (video_id body) ∈ files w')
  ∨ (r = fallback_response (video_url body)
     ∧ target_path (video_id body) ∉ files w').
Proof.
  intros Hval Hrun.
  destruct (py_in (get_domain (Some (video_url body)))
              MINI_PROGRAM_LEGAL_DOMAIN) eqn:Hin.
  { unfold download_video_body in Hrun. rewrite Hval, Hin in Hrun.
    cbn [run] in Hrun. left. by simplify_eq. }
  right.
  destruct (decide (target_path (video_id body) ∈ files w)) as [Hp|Hp].
  { rewrite (body_present body x_timestamp x_gclt_text x_egct_text wx_open_id
               Hval Hin _ _ _ Hp) in Hrun.
    left. by simplify_eq. }
  destruct (connect io) as [response|e] eqn:Hc.
  - destruct (body_saves body x_timestamp x_gclt_text x_egct_text wx_open_id
                Hval Hin io n w response Hp Hc)
      as (w1 & _ & Hs).
    destruct (save_failure io n response) as [e|].
    + destruct (save_error e).
      * destruct Hs as [Hs Hf]. rewrite Hs in Hrun. simplify_eq.
        right. split; [done|]. by rewrite Hf.
      * rewrite Hs in Hrun. done.
    + destruct Hs as [Hs Hf]. rewrite Hs in Hrun. simplify_eq.
      left. split; [done|]. rewrite Hf.
      apply elem_of_union_l, elem_of_singleton. reflexivity.
  - rewrite (body_connect_fails body x_timestamp x_gclt_text x_egct_text
               wx_open_id Hval Hin io n w e Hp Hc) in Hrun.
    destruct (connect_error e); simplify_eq.
    right. by split.
Qed.

(** C10: once the request headers have passed validation, every return
    of the handler other than through its catch-all clause is a
    success-shaped response: HTTP status 200, retcode 200, succ true and
    a download_url that is not null.  The response of a failed
    server-side download has the retcode and the succ of a success; it
    differs by its retdesc, and its download_url is the video_url of the
    request. *)
Theorem download_returns_are_success_shaped `{Imports}
    (body : DownloadRequest)
    (x_timestamp x_gclt_text x_egct_text wx_open_id : string)
    (io : IO) (n : nat) (w w' : World) (r : JSONResponse) :
  validate_request_headers x_timestamp x_gclt_text x_egct_text
    [video_url body] = None →
  run io n (download_video_body body x_timestamp x_gclt_text x_egct_text
              wx_open_id) w = (Ok r, w') →
  run io n (download_video body x_timestamp x_gclt_text x_egct_text
              wx_open_id) w = (Ok r, w')
  ∧ status_code r = 200
  ∧ retcode (content r) = 200
  ∧ succ (content r) = true
  ∧ (∃ u, download_url_of r = Some (Some u))
  ∧ (∀ u u',
       retcode (content (fallback_response u))
         = retcode (content (success_response u'))
       ∧ succ (content (fallback_response u))
         = succ (content (success_response u'))
       ∧ retdesc (content (fallback_response u))
         ≠ retdesc (content (success_response u'))
       ∧ download_url_of (fallback_response u) = Some (Some u)).
Proof.
  intros Hval Hrun. split.
  { by rewrite run_download_video, Hrun. }
  assert (status_code r = 200 ∧ retcode (content r) = 200
          ∧ succ (content r) = true
          ∧ ∃ u, download_url_of r = Some (Some u)) as Hshape.
  { destruct (download_video_body_returns _ _ _ _ _ _ _ _ _ _ Hval Hrun)
      as [(_ & -> & _)|[[-> _]|[-> _]]]; repeat split; try reflexivity.
    - eexists. apply download_url_of_success.
    - eexists. apply download_url_of_success.
    - eexists. apply download_url_of_fallback. }
  destruct Hshape as (? & ? & ? & ?). repeat split; done.
Qed.

Lemma download_returns_are_success_shaped_witness :
  ∃ w',
    run (io_ok Demo.truncated) 0
      (@download_video (Demo.imports Demo.never) Demo.remote Demo.ts "g" "e"
         "Guest") Demo.empty_world
    = (Ok (fallback_response "https://video.example.net/v/42.mp4"), w')
    ∧ retcode (content (fallback_response
                          "https://video.example.net/v/42.mp4")) = 200
    ∧ succ (content (fallback_response
                       "https://video.example.net/v/42.mp4")) = true.
Proof.
  eexists.
  pose proof (@download_returns_are_success_shaped
                (Demo.imports Demo.never) Demo.remote Demo.ts "g" "e"
                "Guest" (io_ok Demo.truncated) 0%nat Demo.empty_world _
                (fallback_response "https://video.example.net/v/42.mp4")
                eq_refl eq_refl) as (Hrun & _ & Hcode & Hsucc & _).
  exact (conj Hrun (conj Hcode Hsucc)).
Defined.

(** C2: when the server-side download of a request fails after the
    response has been obtained, that is while opening the target, while
    writing a chunk or while reading the body (an exception of the
    classes [ChunkedEncodingError] and [IOError]), the handler returns
    its failure response and the target path does not exist in the
    world it leaves. *)
Theorem failed_save_leaves_no_file `{Imports} (body : DownloadRequest)
    (x_timestamp x_gclt_text x_egct_text wx_open_id : string)
    (io : IO) (n : nat) (w : World) (response : HttpResponse) (e : exn) :
  validate_request_headers x_timestamp x_gclt_text x_egct_text
    [video_url body] = None →
  py_in (get_domain (Some (video_url body))) MINI_PROGRAM_LEGAL_DOMAIN
    = false →
  target_path (video_id body) ∉ files w →
  connect io = Ok response →
  save_failure io n response = Some e →
  save_error e = true →
  ∃ w',
    run io n (download_video body x_timestamp x_gclt_text x_egct_text
                wx_open_id) w
    = (Ok (fallback_response (video_url body)), w')
    ∧ target_path (video_id body) ∉ files w'.
Proof.
  intros Hval Hin Hp Hc Hs He.
  destruct (body_saves body x_timestamp x_gclt_text x_egct_text wx_open_id
              Hval Hin io n w response Hp Hc) as (w' & _ & Hb).
  rewrite Hs, He in Hb. destruct Hb as [Hrun Hfiles].
  exists w'. split.
  - by rewrite run_download_video, Hrun.
  - by rewrite Hfiles.
Qed.

Lemma failed_save_leaves_no_file_witness :
  ∃ w',
    run (io_ok Demo.truncated) 0
      (@download_video (Demo.imports Demo.never) Demo.remote Demo.ts "g" "e"
         "Guest") Demo.empty_world
    = (Ok (fallback_response "https://video.example.net/v/42.mp4"), w')
    ∧ "static/videos/42.mp4" ∉ files w'.
Proof.
  apply (@failed_save_leaves_no_file (Demo.imports Demo.never) Demo.remote
           Demo.ts "g" "e" "Guest" (io_ok Demo.truncated) 0%nat
           Demo.empty_world Demo.truncated ChunkedEncodingError);
    try reflexivity.
  apply not_elem_of_empty.
Defined.

(** C3, as amended: for a request outside the allow-list whose video is
    not yet on disk, a server-side download that fails with an exception
    of a class its handlers name, be it the connection (the classes
    [RequestException] and [ConnectionError]) or the saving (the classes
    [ChunkedEncodingError] and [IOError]), is answered with a
    success-shaped response whose download_url is the video_url of the
    request. *)
Theorem download_failure_falls_back `{Imports} (body : DownloadRequest)
    (x_timestamp x_gclt_text x_egct_text wx_open_id : string)
    (io : IO) (n : nat) (w : World) :
  validate_request_headers x_timestamp x_gclt_text x_egct_text
    [video_url body] = None →
  py_in (get_domain (Some (video_url body))) MINI_PROGRAM_LEGAL_DOMAIN
    = false →
  target_path (video_id body) ∉ files w →
  (∃ e, connect io = Raise e ∧ connect_error e = true)
  ∨ (∃ response e,
       connect io = Ok response
       ∧ save_failure io n response = Some e ∧ save_error e = true) →
  ∃ r w',
    run io n (download_video body x_timestamp x_gclt_text x_egct_text
                wx_open_id) w = (Ok r, w')
    ∧ status_code r = 200
    ∧ retcode (content r) = 200
    ∧ succ (content r) = true
    ∧ download_url_of r = Some (Some (video_url body)).
Proof.
  intros Hval Hin Hp Hfail.
  exists (fallback_response (video_url body)).
  assert (∃ w',
    run io n (download_video_body body x_timestamp x_gclt_text x_egct_text
                wx_open_id) w
    = (Ok (fallback_response (video_url body)), w')) as [w' Hrun].
  { destruct Hfail as [(e & Hc & He)|(response & e & Hc & Hs & He)].
    - rewrite (body_connect_fails body x_timestamp x_gclt_text x_egct_text
                 wx_open_id Hval Hin io n w e Hp Hc), He. by eexists.
    - destruct (body_saves body x_timestamp x_gclt_text x_egct_text
                  wx_open_id Hval Hin io n w response Hp Hc)
        as (w' & _ & Hb).
      rewrite Hs, He in Hb. exists w'. apply Hb. }
  exists w'. rewrite run_download_video, Hrun.
  repeat split.
Qed.

Lemma download_failure_falls_back_witness :
  ∃ r w',
    run (mkIO (Raise ConnectionError) None (λ _, None)) 0
      (@download_video (Demo.imports Demo.never) Demo.remote Demo.ts "g" "e"
         "Guest") Demo.empty_world = (Ok r, w')
    ∧ status_code r = 200
    ∧ retcode (content r) = 200
    ∧ succ (content r) = true
    ∧ download_url_of r = Some (Some "https://video.example.net/v/42.mp4").
Proof.
  apply (@download_failure_falls_back (Demo.imports Demo.never) Demo.remote
           Demo.ts "g" "e" "Guest"
           (mkIO (Raise ConnectionError) None (λ _, None)) 0%nat
           Demo.empty_world); try reflexivity.
  - apply not_elem_of_empty.
  - left. exists ConnectionError. split; reflexivity.
Defined.

(** C3, as stated, fails on a failure of another class: the video id
    holds a NUL character, the connection succeeds, [open] refuses the
    path with a [ValueError], which is no [IOError]; the save handler
    lets it pass, and the catch-all clause answers with the 500 error,
    which carries no download_url. *)
Lemma download_failure_counterexample :
  @validate_request_headers (Demo.imports Demo.never) Demo.ts "g" "e"
    [video_url nul_id] = None
  ∧ py_in (@get_domain (Demo.imports Demo.never) (Some (video_url nul_id)))
      (@MINI_PROGRAM_LEGAL_DOMAIN (Demo.imports Demo.never)) = false
  ∧ connect refusing_open = Ok Demo.two_chunks
  ∧ save_failure refusing_open 0 Demo.two_chunks = Some ValueError
  ∧ ∃ r,
      run refusing_open 0
        (@download_video (Demo.imports Demo.never) nul_id Demo.ts "g" "e"
           "Guest") Demo.empty_world = (Ok r, mkWorld ∅ [ EGet
             (video_url nul_id) (download_headers (video_url nul_id)) ])
      ∧ status_code r = 500
      ∧ retcode (content r) = 500
      ∧ succ (content r) = false
      ∧ download_url_of r ≠ Some (Some (video_url nul_id)).
Proof.
  split; [reflexivity|]. split; [reflexivity|].
  split; [reflexivity|]. split; [reflexivity|].
  exists error_response. split; [reflexivity|].
  repeat split. discriminate.
Qed.




(** ** The retry loop *)

Section RetryLoop.

Context `{Imports}.
Variables (platform : string) (real_url : option string).

Lemma extract_once_ok j d :
  create_downloader platform real_url j = Ok d →
  extract_once platform real_url j = Ok (locals_of d).
Proof. unfold extract_once. by intros ->. Qed.

(** The loop stops at the first instance that finds a video. *)
Lemma retry_loop_found (d : Downloader) :
  ∀ (k remaining : nat) (vars : Locals) (c : nat),
    (k < remaining)%nat →
    (∀ j, (j < k)%nat → finds_nothing platform real_url (c + j)) →
    create_downloader platform real_url (c + k) = Ok d →
    truthy (get_real_video_url d) = true →
    retry_loop remaining platform real_url vars c
    = (Ok (locals_of d), (c + S k)%nat).
Proof.
  induction k as [|k IH]; intros remaining vars c Hlt Hbefore Hd Hfound;
    destruct remaining as [|remaining]; try lia; cbn [retry_loop].
  - rewrite Nat.add_0_r in Hd. rewrite (extract_once_ok _ _ Hd).
    cbn [l_video_url locals_of]. rewrite Hfound. f_equal. lia.
  - destruct (Hbefore 0%nat ltac:(lia)) as (d0 & Hd0 & Hnone).
    rewrite Nat.add_0_r in Hd0. rewrite (extract_once_ok _ _ Hd0).
    cbn [l_video_url locals_of]. rewrite Hnone.
    rewrite (IH remaining (locals_of d0) (S c)).
    + f_equal. lia.
    + lia.
    + intros j Hj. replace (S c + j)%nat with (c + S j)%nat by lia.
      apply Hbefore. lia.
    + by replace (S c + k)%nat with (c + S k)%nat by lia.
    + done.
Qed.

(** When no instance finds a video the loop runs [remaining] times and
    leaves the values of its last instance. *)
Lemma retry_loop_exhausted :
  ∀ (remaining : nat) (vars : Locals) (c : nat),
    (∀ j, (j < remaining)%nat → finds_nothing platform real_url (c + j)) →
    ∃ vars',
      retry_loop remaining platform real_url vars c
      = (Ok vars', (c + remaining)%nat)
      ∧ match remaining with
        | O => vars' = vars
        | S m =>
            ∃ d, create_downloader platform real_url (c + m) = Ok d
                 ∧ vars' = locals_of d
        end.
Proof.
  induction remaining as [|remaining IH]; intros vars c Hnone;
    cbn [retry_loop].
  - exists vars. split; [f_equal; lia|done].
  - destruct (Hnone 0%nat ltac:(lia)) as (d0 & Hd0 & Hfalse).
    rewrite Nat.add_0_r in Hd0. rewrite (extract_once_ok _ _ Hd0).
    cbn [l_video_url locals_of]. rewrite Hfalse.
    destruct (IH (locals_of d0) (S c)) as (vars' & Hloop & Hlast).
    { intros j Hj. replace (S c + j)%nat with (c + S j)%nat by lia.
      apply Hnone. lia. }
    exists vars'. split.
    + rewrite Hloop. f_equal. lia.
    + destruct remaining as [|m].
      * subst vars'. exists d0. by rewrite Nat.add_0_r.
      * destruct Hlast as (d & Hd & ->). exists d. split; [|done].
        by replace (c + S m)%nat with (S c + m)%nat by lia.
Qed.

End RetryLoop.

(** A value that is not truthy is left alone by the HTTPS rewrite. *)
Lemma convert_to_https_falsy (v : option string) :
  truthy v = false → convert_to_https v = v ∧ (v = None ∨ v = Some "").
Proof.
  destruct v as [s|]; [|by intros _; split; [|left]].
  cbn. unfold str_truthy. destruct (String.eqb_spec s "") as [->|]; [|done].
  intros _. split; [done|by right].
Qed.

Lemma prefix_cons_inv (a b : ascii) (s1 s2 : string) :
  String.prefix (String a s1) (String b s2) = true →
  a = b ∧ String.prefix s1 s2 = true.
Proof. cbn. destruct (ascii_dec a b); [by intros|done]. Qed.

(** An already-secure URL is left alone as well. *)
Lemma convert_to_https_secure (s : string) :
  startswith "https://" s = true → convert_to_https (Some s) = Some s.
Proof.
  intros Hs. unfold convert_to_https, startswith in *.
  replace (String.prefix "http://" s) with false; [done|].
  do 5 (destruct s as [|? s]; [done|];
        apply prefix_cons_inv in Hs as [<- Hs]).
  reflexivity.
Qed.

(** The keys of the parsed record. *)
Lemma video_url_of_parsed (video_id : option string) (platform : string)
    (vars : Locals) :
  video_url_of
    (parsed_response
       (add_audio_url platform vars (base_data_dict video_id platform vars)))
  = Some (convert_to_https (l_video_url vars)).
Proof.
  unfold video_url_of, parsed_response, make_response. cbn [content data].
  assert (base_data_dict video_id platform vars !! "video_url"
          = Some (convert_to_https (l_video_url vars))) as Hbase.
  { unfold base_data_dict.
    rewrite lookup_insert_ne by done. apply lookup_insert_eq. }
  unfold add_audio_url.
  repeat case_match; try done.
Qed.

(** ** The parse handler *)

Section ParseFacts.

Context `{Imports}.
Variables (body : ParseRequest)
          (x_timestamp x_gclt_text x_egct_text wx_open_id : string).

Hypothesis validated :
  validate_request_headers x_timestamp x_gclt_text x_egct_text
    [text body] = None.
Hypothesis url_found : truthy (get_url (text body)) = true.

(** Past validation and URL extraction the handler is [resolve]. *)
Lemma parse_video_resolves (c : nat) :
  parse_video body x_timestamp x_gclt_text x_egct_text wx_open_id c =
  match resolve (get_url (text body)) c with
  | (Ok response, c') => (response, c')
  | (Raise _, c') => (error_500, c')
  end.
Proof.
  unfold parse_video, parse_video_body. by rewrite validated, url_found.
Qed.

(** A recognized platform whose extraction does not raise. *)
Lemma resolve_recognized (platform : string) (vars : Locals) (c c' : nat) :
  dict_get DOMAIN_TO_NAME
    (get_domain (redirect_target (get_url (text body)))) = Some platform →
  str_truthy platform = true →
  extract platform
    (extract_video_address (redirect_target (get_url (text body)))) c
    = (Ok vars, c') →
  parse_video body x_timestamp x_gclt_text x_egct_text wx_open_id c =
  (parsed_response
     (add_audio_url platform vars
        (base_data_dict
           (get_video_id (redirect_target (get_url (text body))))
           platform vars)), c').
Proof.
  intros Hp Ht He. rewrite parse_video_resolves. unfold resolve.
  by rewrite Hp, Ht, He.
Qed.

End ParseFacts.

(** C7: a link whose landing URL maps to no supported platform stops
    the pipeline before extraction.  The handler returns the
    unsupported-link error (status 400, no data) and the number of
    extractor instances constructed is what it was before the
    request. *)
Theorem unsupported_platform_stops_before_extraction `{Imports}
    (body : ParseRequest)
    (x_timestamp x_gclt_text x_egct_text wx_open_id : string) (c : nat) :
  validate_request_headers x_timestamp x_gclt_text x_egct_text
    [text body] = None →
  truthy (get_url (text body)) = true →
  truthy (dict_get DOMAIN_TO_NAME
            (get_domain (redirect_target (get_url (text body))))) = false →
  parse_video body x_timestamp x_gclt_text x_egct_text wx_open_id c
    = (unsupported_response, c)
  ∧ status_code unsupported_response = 400
  ∧ retdesc (content unsupported_response) = "该链接尚未支持提取"
  ∧ succ (content unsupported_response) = false
  ∧ data (content unsupported_response) = None.
Proof.
  intros Hval Hurl Hplat. split; [|done].
  rewrite (parse_video_resolves body _ _ _ wx_open_id Hval Hurl).
  unfold resolve.
  destruct (dict_get _ _) as [platform|]; [|done].
  cbn [truthy] in Hplat. by rewrite Hplat.
Qed.

Lemma unsupported_platform_stops_before_extraction_witness :
  @parse_video (Demo.imports Demo.never) Demo.other_site Demo.ts "g" "e"
    "Guest" 0 = (unsupported_response, 0%nat)
  ∧ status_code unsupported_response = 400
  ∧ retdesc (content unsupported_response) = "该链接尚未支持提取"
  ∧ succ (content unsupported_response) = false
  ∧ data (content unsupported_response) = None.
Proof.
  apply (@unsupported_platform_stops_before_extraction
           (Demo.imports Demo.never) Demo.other_site Demo.ts "g" "e"
           "Guest" 0%nat); reflexivity.
Defined.

(** C1, as amended: in the retry loop of the Xiaohongshu platform every
    attempt constructs a fresh extractor instance.  If the instance
    constructed as number k+1 (k < 5) is the first whose video_url is
    truthy, that is neither null nor empty, exactly k+1 instances are
    constructed and the response carries that video URL, normalized to
    HTTPS.  If none of five instances has a truthy video_url, exactly five
    are constructed and the handler returns, without raising, the
    success-shaped response with the video_url of the fifth instance,
    which is null or empty. *)
Theorem xiaohongshu_retry_loop `{Imports} (body : ParseRequest)
    (x_timestamp x_gclt_text x_egct_text wx_open_id : string) (c : nat) :
  validate_request_headers x_timestamp x_gclt_text x_egct_text
    [text body] = None →
  truthy (get_url (text body)) = true →
  dict_get DOMAIN_TO_NAME
    (get_domain (redirect_target (get_url (text body)))) = Some "小红书" →
  let real_url :=
    extract_video_address (redirect_target (get_url (text body))) in
  (∀ (k : nat) (d : Downloader),
     (k < 5)%nat →
     (∀ j, (j < k)%nat → finds_nothing "小红书" real_url (c + j)) →
     create_downloader "小红书" real_url (c + k) = Ok d →
     truthy (get_real_video_url d) = true →
     ∃ r,
       parse_video body x_timestamp x_gclt_text x_egct_text wx_open_id c
         = (r, (c + S k)%nat)
       ∧ status_code r = 200
       ∧ video_url_of r = Some (convert_to_https (get_real_video_url d)))
  ∧ ((∀ j, (j < 5)%nat → finds_nothing "小红书" real_url (c + j)) →
     ∃ r d,
       parse_video body x_timestamp x_gclt_text x_egct_text wx_open_id c
         = (r, (c + 5)%nat)
       ∧ create_downloader "小红书" real_url (c + 4) = Ok d
       ∧ status_code r = 200
       ∧ succ (content r) = true
       ∧ video_url_of r = Some (get_real_video_url d)
       ∧ (get_real_video_url d = None ∨ get_real_video_url d = Some "")).
Proof.
  intros Hval Hurl Hplat real_url. split.
  - intros k d Hk Hbefore Hd Hfound.
    pose proof (retry_loop_found "小红书" real_url d k max_attempts
                  no_locals c Hk Hbefore Hd Hfound) as Hloop.
    eexists. split; [|split].
    + apply (resolve_recognized body _ _ _ wx_open_id Hval Hurl "小红书"
               (locals_of d) c (c + S k)%nat Hplat eq_refl).
      unfold extract. exact Hloop.
    + reflexivity.
    + apply video_url_of_parsed.
  - intros Hnone.
    destruct (retry_loop_exhausted "小红书" real_url max_attempts no_locals
                c Hnone) as (vars & Hloop & d & Hd & ->).
    destruct (Hnone 4%nat ltac:(lia)) as (d' & Hd' & Hfalse).
    assert (d' = d) as -> by congruence.
    destruct (convert_to_https_falsy _ Hfalse) as [Hsame Hcases].
    eexists. exists d.
    split; [|split; [exact Hd|split; [|split; [|split; [|exact Hcases]]]]].
    + apply (resolve_recognized body _ _ _ wx_open_id Hval Hurl "小红书"
               (locals_of d) c (c + 5)%nat Hplat eq_refl).
      unfold extract. exact Hloop.
    + reflexivity.
    + reflexivity.
    + rewrite video_url_of_parsed. cbn [locals_of l_video_url].
      by rewrite Hsame.
Qed.

Lemma xiaohongshu_retry_loop_witness :
  ∃ r,
    @parse_video (Demo.imports Demo.third_time) Demo.xhs Demo.ts "g" "e"
      "Guest" 0 = (r, 3%nat)
    ∧ status_code r = 200
    ∧ video_url_of r = Some (Some "https://sns-video-bd.xhscdn.com/k1").
Proof.
  destruct (@xiaohongshu_retry_loop (Demo.imports Demo.third_time) Demo.xhs
              Demo.ts "g" "e" "Guest" 0%nat eq_refl eq_refl eq_refl)
    as [Hfound _].
  apply (Hfound 2%nat (Demo.found "http://sns-video-bd.xhscdn.com/k1"));
    [lia| |reflexivity|reflexivity].
  intros j Hj. exists Demo.nothing_found. split; [|reflexivity].
  destruct j as [|[|j]]; [reflexivity|reflexivity|lia].
Defined.

(** C1, as stated, fails on a video_url that is not null but empty: the
    first instance reports the empty string, the loop does not stop
    there, and five instances are constructed instead of one. *)
Lemma xiaohongshu_retry_counterexample :
  (∃ d, Demo.empty_first 0 = Ok d ∧ get_real_video_url d ≠ None)
  ∧ @validate_request_headers (Demo.imports Demo.empty_first) Demo.ts "g"
      "e" [text Demo.xhs] = None
  ∧ snd (@parse_video (Demo.imports Demo.empty_first) Demo.xhs Demo.ts "g"
           "e" "Guest" 0) = 5%nat
  ∧ snd (@parse_video (Demo.imports Demo.empty_first) Demo.xhs Demo.ts "g"
           "e" "Guest" 0) ≠ 1%nat.
Proof.
  split; [by eexists|]. by vm_compute.
Qed.

(** C6, as amended: when the platform is recognized and no extractor
    instance finds a usable video URL, the handler does not report a
    tagged failure.  It returns the success-shaped record, status 200
    with retcode 200 and succ true, whose video_url is null or empty;
    the response is not a 5xx. *)
Theorem empty_extraction_is_reported_as_success `{Imports}
    (body : ParseRequest)
    (x_timestamp x_gclt_text x_egct_text wx_open_id : string) (c : nat)
    (platform : string) :
  validate_request_headers x_timestamp x_gclt_text x_egct_text
    [text body] = None →
  truthy (get_url (text body)) = true →
  dict_get DOMAIN_TO_NAME
    (get_domain (redirect_target (get_url (text body)))) = Some platform →
  str_truthy platform = true →
  (∀ j, finds_nothing platform
          (extract_video_address (redirect_target (get_url (text body))))
          (c + j)) →
  ∃ r c' v,
    parse_video body x_timestamp x_gclt_text x_egct_text wx_open_id c
      = (r, c')
    ∧ status_code r = 200
    ∧ retcode (content r) = 200
    ∧ retdesc (content r) = "成功"
    ∧ succ (content r) = true
    ∧ video_url_of r = Some v
    ∧ (v = None ∨ v = Some "").
Proof.
  intros Hval Hurl Hplat Htruthy Hnone.
  set (real_url :=
         extract_video_address (redirect_target (get_url (text body)))) in *.
  assert (∃ d c',
            extract platform real_url c = (Ok (locals_of d), c')
            ∧ truthy (get_real_video_url d) = false) as (d & c' & He & Hf).
  { unfold extract. destruct (String.eqb platform "小红书").
    - destruct (retry_loop_exhausted platform real_url max_attempts
                  no_locals c (λ j _, Hnone j))
        as (vars & Hloop & d & Hd & ->).
      destruct (Hnone 4%nat) as (d' & Hd' & Hfalse).
      assert (d' = d) as -> by congruence.
      by exists d, (c + max_attempts)%nat.
    - destruct (Hnone 0%nat) as (d & Hd & Hfalse).
      rewrite Nat.add_0_r in Hd.
      rewrite (extract_once_ok _ _ _ _ Hd). by exists d, (S c). }
  destruct (convert_to_https_falsy _ Hf) as [Hsame Hcases].
  eexists. exists c', (get_real_video_url d).
  split; [|split; [|split; [|split; [|split; [|split; [|exact Hcases]]]]]].
  - exact (resolve_recognized body _ _ _ wx_open_id Hval Hurl platform
             (locals_of d) c c' Hplat Htruthy He).
  - reflexivity.
  - reflexivity.
  - reflexivity.
  - reflexivity.
  - rewrite video_url_of_parsed. cbn [locals_of l_video_url].
    by rewrite Hsame.
Qed.

Lemma empty_extraction_is_reported_as_success_witness :
  ∃ r c' v,
    @parse_video (Demo.imports Demo.never) Demo.xhs Demo.ts "g" "e" "Guest" 0
      = (r, c')
    ∧ status_code r = 200
    ∧ retcode (content r) = 200
    ∧ retdesc (content r) = "成功"
    ∧ succ (content r) = true
    ∧ video_url_of r = Some v
    ∧ (v = None ∨ v = Some "").
Proof.
  apply (@empty_extraction_is_reported_as_success (Demo.imports Demo.never)
           Demo.xhs Demo.ts "g" "e" "Guest" 0%nat "小红书");
    try reflexivity.
  intros j. exists Demo.nothing_found. split; reflexivity.
Defined.

(** C6, as stated, fails: the platform is recognized, five instances
    find nothing, and the output is the success-shaped record, with a
    null video_url, not a tagged failure. *)
Lemma empty_extraction_counterexample :
  ∃ r d,
    @parse_video (Demo.imports Demo.never) Demo.xhs Demo.ts "g" "e" "Guest" 0
      = (r, 5%nat)
    ∧ status_code r = 200
    ∧ retcode (content r) = 200
    ∧ retdesc (content r) = "成功"
    ∧ succ (content r) = true
    ∧ data (content r) = Some d
    ∧ d !! "video_url" = Some None
    ∧ d !! "platform" = Some (Some "小红书").
Proof.
  eexists. eexists. split; [vm_compute; reflexivity|].
  repeat split; vm_compute; reflexivity.
Qed.

(** ** Merging *)

Lemma os_remove_present (path : string) (fs : gset string) :
  path ∈ fs → os_remove path fs = (Ok tt, fs ∖ {[path]}).
Proof. intros Hin. unfold os_remove. by rewrite bool_decide_eq_true_2. Qed.

Lemma not_installed_is_distinct (diagnostic : string) :
  VideoClient.not_installed ≠ ("合并失败: " +:+ diagnostic).
Proof. done. Qed.



(** ** Two requests for the same video *)








(** *** Any interleaving *)

Section StageFacts.

Context `{Imports}.
Variables (url id : string).






Variable response : HttpResponse.
Hypothesis status_ok : raise_for_status response = None.
Hypothesis body_ok : iter_raises response = None.





End StageFacts.







(** ** The Flask blueprints and the command-line client

    The blueprints differ from the FastAPI handlers in their validation
    only, and the client's merge from the one of the application in
    what it reports. *)

Lemma flask_parse_agrees `{Imports} (body : ParseRequest)
    (x_timestamp x_gclt_text x_egct_text wx_open_id : string) (c : nat) :
  validate_request_headers x_timestamp x_gclt_text x_egct_text
    [text body] = None →
  validate_request (text body) = None →
  truthy (get_url (text body)) = true →
  Flask.parse (text body) wx_open_id c
  = parse_video body x_timestamp x_gclt_text x_egct_text wx_open_id c.
Proof.
  intros Hval Hflask Hurl.
  rewrite (parse_video_resolves body _ _ _ wx_open_id Hval Hurl).
  unfold Flask.parse. by rewrite Hflask.
Qed.

Lemma flask_download_agrees `{Imports} (body : DownloadRequest)
    (x_timestamp x_gclt_text x_egct_text wx_open_id : string) :
  validate_request_headers x_timestamp x_gclt_text x_egct_text
    [video_url body] = None →
  validate_request (video_url body) = None →
  Flask.download (video_url body) (video_id body) wx_open_id
  = download_video body x_timestamp x_gclt_text x_egct_text wx_open_id.
Proof.
  intros Hval Hflask.
  unfold Flask.download, Flask.download_body, download_video,
    download_video_body.
  by rewrite Hval, Hflask.
Qed.

(** The client's merge leaves the files the application's merge leaves
    and succeeds when it does. *)
Lemma client_merge_agrees `{Subprocess}
    (video_path audio_path output_path : string) (fs : gset string) :
  client_bilibili.fs_after
    (snd (client_bilibili.merge_video_audio video_path audio_path
            output_path fs))
  = snd (VideoClient.merge_video_audio video_path audio_path output_path fs)
  ∧ fst (client_bilibili.merge_video_audio video_path audio_path
           output_path fs)
    = match fst (VideoClient.merge_video_audio video_path audio_path
                   output_path fs) with
      | Ok (merged, _) => Ok merged
      | Raise e => Raise e
      end.
Proof.
  unfold client_bilibili.merge_video_audio, VideoClient.merge_video_audio,
    client_bilibili.except_FileNotFoundError,
    VideoClient.except_FileNotFoundError, os_remove.
  destruct (subprocess_run _ fs) as [[result|e] fs1]; cbn [fst snd].
  - destruct (returncode result =? 0); [|done].
    repeat (destruct (bool_decide _);
            cbn [fst snd client_bilibili.fs_after]); done.
  - by destruct (isinstance_FileNotFoundError e).
Qed.

(** What the client prints tells a missing tool from a failed merge. *)
Lemma client_merge_reports_missing_tool `{Subprocess}
    (video_path audio_path output_path : string) (fs fs1 : gset string) :
  subprocess_run (ffmpeg_cmd video_path audio_path output_path) fs
    = (Raise FileNotFoundError, fs1) →
  client_bilibili.merge_video_audio video_path audio_path output_path fs
  = (Ok false,
     client_bilibili.mkOut
       [ "正在合并音视频...";
         "警告: 未安装ffmpeg，无法合并音视频";
         "请安装ffmpeg: sudo apt install ffmpeg" ] fs1).
Proof.
  intros Hrun. unfold client_bilibili.merge_video_audio. by rewrite Hrun.
Qed.

(** ** The model at work *)

Example os_path_join_relative :
  os_path_join "static/videos" "42.mp4" = "static/videos/42.mp4".
Proof. reflexivity. Qed.

Example os_path_join_absolute :
  os_path_join "static/videos" "/etc/42.mp4" = "/etc/42.mp4".
Proof. reflexivity. Qed.

Example convert_to_https_plain :
  convert_to_https (Some "http://host/path") = Some "https://host/path".
Proof. reflexivity. Qed.

Example third_time_lucky :
  snd (@parse_video (Demo.imports Demo.third_time) Demo.xhs Demo.ts "g" "e"
         "Guest" 0) = 3%nat.
Proof. reflexivity. Qed.

Example invalid_timestamp_is_rejected :
  status_code
    (fst (@parse_video (Demo.imports Demo.never) Demo.xhs "1600000000000"
            "g" "e" "Guest" 0)) = 400.
Proof. reflexivity. Qed.

Example truncated_body_is_removed :
  log (snd (run (io_ok Demo.truncated) 0
              (@download_video (Demo.imports Demo.never) Demo.remote Demo.ts
                 "g" "e" "Guest") Demo.empty_world))
  = [ ERemove "static/videos/42.mp4";
      EWrite "static/videos/42.mp4" "abcd";
      EOpen "static/videos/42.mp4";
      EGet "https://video.example.net/v/42.mp4"
        (download_headers "https://video.example.net/v/42.mp4") ].
Proof. vm_compute. reflexivity. Qed.

(** One file given as both tracks: the tool succeeds, the second
    removal fails, and the merge reports a missing tool. *)
Example merge_of_one_file_twice :
  @VideoClient.merge_video_audio Demo.ffmpeg "tmp/v.m4s" "tmp/v.m4s"
    "out/merged.mp4" Demo.tracks
  = (Ok (false, VideoClient.not_installed),
     {[ "out/merged.mp4"; "tmp/a.m4s" ]}).
Proof. vm_compute. reflexivity. Qed.

(** * Further properties of the handlers *)

(** ** Request validation *)

Lemma filter_falsy_nil (args : list string) :
  filter (λ param, str_truthy param = false) args = []
  ↔ Forall (λ param, str_truthy param = true) args.
Proof.
  induction args as [|a args IH]; [by split|].
  rewrite filter_cons, Forall_cons.
  destruct (decide (str_truthy a = false)) as [Ha|Ha].
  - split; [done|]. intros [Ht _]. congruence.
  - rewrite IH. split; [|by intros [_ ?]].
    intros Hrest. split; [|done]. by destruct (str_truthy a).
Qed.

Lemma validate_timestamp_window `{Imports} (request_timestamp : Z) :
  validate_timestamp request_timestamp = true
  ↔ now - 300000 ≤ request_timestamp ≤ now + 300000.
Proof. unfold validate_timestamp. rewrite Z.leb_le. lia. Qed.

(** X1: the request passes validation exactly when every argument is
    non-empty, the timestamp header is non-empty and reads as an
    integer at most five minutes (300000 ms) before or after the clock
    of the server, both bounds included, and the cipher check holds. *)
Theorem validate_request_headers_accepts `{Imports}
    (x_timestamp x_gclt_text x_egct_text : string) (args : list string) :
  validate_request_headers x_timestamp x_gclt_text x_egct_text args = None
  ↔ Forall (λ param, str_truthy param = true) args
    ∧ str_truthy x_timestamp = true
    ∧ ∃ ts, int_of_str x_timestamp = Some ts
            ∧ now - 300000 ≤ ts ≤ now + 300000
            ∧ verify_decryption x_timestamp x_egct_text x_gclt_text = true.
Proof.
  unfold validate_request_headers.
  rewrite <- filter_falsy_nil.
  destruct (decide (filter (λ param, str_truthy param = false) args = []))
    as [Hnil|Hnil].
  - rewrite (bool_decide_eq_true_2 _ Hnil). cbn [negb].
    destruct (str_truthy x_timestamp); cbn [negb];
      [|split; [done|by intros (_ & ? & _)]].
    destruct (int_of_str x_timestamp) as [ts|];
      [|split; [done|by intros (_ & _ & ? & ? & _)]].
    destruct (validate_timestamp ts) eqn:Hwin; cbn [negb].
    + apply validate_timestamp_window in Hwin.
      destruct (verify_decryption _ _ _); cbn [negb].
      * split; [|done]. intros _. split; [done|]. split; [done|].
        by exists ts.
      * split; [done|]. intros (_ & _ & ts' & ? & _ & ?). congruence.
    + split; [done|]. intros (_ & _ & ts' & Hts & Hwin' & _).
      simplify_eq. apply validate_timestamp_window in Hwin'. congruence.
  - rewrite (bool_decide_eq_false_2 _ Hnil). cbn [negb].
    split; [done|]. by intros [? _].
Qed.

(** X2: whatever it rejects, validation rejects with a 400 error that
    carries no data and one of its five messages; a missing argument is
    reported before anything about the timestamp is looked at. *)
Theorem validate_request_headers_rejects `{Imports}
    (x_timestamp x_gclt_text x_egct_text : string) (args : list string)
    (r : APIResponse) :
  validate_request_headers x_timestamp x_gclt_text x_egct_text args
    = Some r →
  retcode r = 400 ∧ succ r = false ∧ data r = None ∧ ranking r = None
  ∧ retdesc r ∈ [ "Missing parameters in request";
                  "Missing timestamp in request";
                  "Invalid timestamp format";
                  "Invalid timestamp";
                  "Decryption verification failed" ]
  ∧ (Exists (λ param, str_truthy param = false) args →
     retdesc r = "Missing parameters in request").
Proof.
  unfold validate_request_headers. intros Hr.
  destruct (decide (filter (λ param, str_truthy param = false) args = []))
    as [Hnil|Hnil].
  - rewrite (bool_decide_eq_true_2 _ Hnil) in Hr. cbn [negb] in Hr.
    apply filter_falsy_nil in Hnil.
    assert (¬ Exists (λ param, str_truthy param = false) args) as Hno.
    { rewrite Exists_exists. intros (p & Hp & Hfalse).
      rewrite Forall_forall in Hnil. specialize (Hnil p Hp). congruence. }
    repeat case_match; simplify_eq; cbn;
      (repeat split; [set_solver|done]).
  - rewrite (bool_decide_eq_false_2 _ Hnil) in Hr. cbn [negb] in Hr.
    simplify_eq. cbn. repeat split. set_solver.
Qed.

Lemma validate_request_headers_rejects_witness :
  retcode (make_response 400 "Invalid timestamp format" None None false) = 400
  ∧ succ (make_response 400 "Invalid timestamp format" None None false) = false
  ∧ data (make_response 400 "Invalid timestamp format" None None false) = None.
Proof.
  destruct (@validate_request_headers_rejects (Demo.imports Demo.never)
              "1600000000000" "g" "e" [ "https://www.douyin.com/v/1" ]
              (make_response 400 "Invalid timestamp format" None None false)
              eq_refl) as (H1 & H2 & H3 & _).
  exact (conj H1 (conj H2 H3)).
Defined.

(** ** The responses of the parse handler *)

Lemma validation_error_shape `{Imports}
    (x_timestamp x_gclt_text x_egct_text : string) (args : list string)
    (r : APIResponse) :
  validate_request_headers x_timestamp x_gclt_text x_egct_text args
    = Some r →
  retcode r = 400 ∧ succ r = false ∧ data r = None.
Proof.
  unfold validate_request_headers. intros Hr.
  repeat case_match; by simplify_eq.
Qed.

Lemma well_formed_rejection (r : APIResponse) :
  retcode r = 400 → succ r = false → data r = None →
  well_formed (mkJSONResponse 400 r).
Proof.
  intros Hcode Hsucc Hdata. unfold well_formed. cbn [status_code content].
  rewrite Hcode, Hsucc, Hdata.
  split; [done|]. split; [by right; left|]. split; [done|].
  split; [by intros [? ?]|done].
Qed.

Lemma well_formed_parsed (d : pydict) : well_formed (parsed_response d).
Proof.
  unfold well_formed. cbn. split; [done|]. split; [by left|]. by split.
Qed.

Lemma well_formed_error_500 : well_formed error_500.
Proof.
  unfold well_formed. cbn. split; [done|]. split; [by right; right|].
  split; [done|]. split; [by intros [? ?]|done].
Qed.

(** The five ways in which the handler ends. *)
Lemma parse_video_cases `{Imports} (body : ParseRequest)
    (x_timestamp x_gclt_text x_egct_text wx_open_id : string) (c c' : nat)
    (r : JSONResponse) :
  parse_video body x_timestamp x_gclt_text x_egct_text wx_open_id c
    = (r, c') →
  (∃ err,
     validate_request_headers x_timestamp x_gclt_text x_egct_text
       [text body] = Some err
     ∧ r = mkJSONResponse 400 err ∧ c' = c)
  ∨ (r = no_url_response ∧ c' = c)
  ∨ (r = unsupported_response ∧ c' = c)
  ∨ (∃ platform vars,
       platform_of (text body) = Some platform
       ∧ extract platform (real_url_of (text body)) c = (Ok vars, c')
       ∧ r = parsed_response
               (add_audio_url platform vars
                  (base_data_dict (get_video_id (landing (text body)))
                     platform vars)))
  ∨ (∃ platform e,
       platform_of (text body) = Some platform
       ∧ extract platform (real_url_of (text body)) c = (Raise e, c')
       ∧ r = error_500).
Proof.
  unfold parse_video, parse_video_body, platform_of, real_url_of, landing.
  destruct (validate_request_headers _ _ _ _) as [err|].
  { intros ?; simplify_eq. left. by exists err. }
  destruct (truthy (get_url (text body))); cbn [negb].
  2: { intros ?; simplify_eq. right. by left. }
  unfold resolve.
  destruct (dict_get _ _) as [platform|].
  2: { intros ?; simplify_eq. right. right. by left. }
  destruct (str_truthy platform); cbn [negb].
  2: { intros ?; simplify_eq. right. right. by left. }
  destruct (extract platform _ c) as [[vars|e] c1] eqn:He;
    intros ?; simplify_eq; right; right; right.
  - left. by exists platform, vars.
  - right. by exists platform, e.
Qed.

(** X3: every response of the parse handler is well formed: its HTTP
    status equals its retcode and is 200, 400 or 500; succ is true
    exactly on status 200, and data is present exactly on status 200.
    No path returns anything else, whatever the helpers and the
    extractors do. *)
Theorem parse_video_is_well_formed `{Imports} (body : ParseRequest)
    (x_timestamp x_gclt_text x_egct_text wx_open_id : string) (c : nat) :
  well_formed
    (fst (parse_video body x_timestamp x_gclt_text x_egct_text wx_open_id
            c)).
Proof.
  destruct (parse_video _ _ _ _ _ c) as [r c'] eqn:Hp. cbn [fst].
  destruct (parse_video_cases _ _ _ _ _ _ _ _ Hp)
    as [(err & Herr & -> & _)|[[-> _]|[[-> _]|[(p & vars & _ & _ & ->)
       |(p & e & _ & _ & ->)]]]].
  - destruct (validation_error_shape _ _ _ _ _ Herr) as (? & ? & ?).
    by apply well_formed_rejection.
  - by apply well_formed_rejection.
  - by apply well_formed_rejection.
  - apply well_formed_parsed.
  - apply well_formed_error_500.
Qed.

(** ** How many extractors a request constructs *)

Lemma retry_loop_bound `{Imports} (platform : string)
    (real_url : option string) :
  ∀ (remaining : nat) (vars : Locals) (c : nat),
    (c ≤ snd (retry_loop remaining platform real_url vars c)
     ≤ c + remaining)%nat.
Proof.
  induction remaining as [|remaining IH]; intros vars c; cbn [retry_loop].
  - cbn. lia.
  - destruct (extract_once platform real_url c) as [vars'|e].
    + destruct (truthy (l_video_url vars')).
      * cbn. lia.
      * specialize (IH vars' (S c)). lia.
    + cbn. lia.
Qed.

(** X4: a request constructs at most five extractor instances, and at
    most one when the platform is not Xiaohongshu; the count never goes
    down.  This holds whatever the extractors return or raise. *)
Theorem parse_video_constructs_at_most_five `{Imports} (body : ParseRequest)
    (x_timestamp x_gclt_text x_egct_text wx_open_id : string) (c : nat) :
  (c ≤ snd (parse_video body x_timestamp x_gclt_text x_egct_text wx_open_id
              c) ≤ c + 5)%nat
  ∧ (platform_of (text body) ≠ Some "小红书" →
     (snd (parse_video body x_timestamp x_gclt_text x_egct_text wx_open_id
             c) ≤ c + 1)%nat).
Proof.
  destruct (parse_video _ _ _ _ _ c) as [r c'] eqn:Hp. cbn [snd].
  assert (∀ platform o,
            extract platform (real_url_of (text body)) c = (o, c') →
            (c ≤ c' ≤ c + 5)%nat
            ∧ (platform ≠ "小红书" → (c' ≤ c + 1)%nat)) as Hextract.
  { intros platform o. unfold extract.
    destruct (String.eqb_spec platform "小红书") as [->|Hne].
    - intros Hloop.
      pose proof (retry_loop_bound "小红书" (real_url_of (text body))
                    max_attempts no_locals c) as Hb.
      rewrite Hloop in Hb. cbn [snd] in Hb. unfold max_attempts in Hb.
      split; [lia|done].
    - destruct (extract_once _ _ _); intros ?; simplify_eq; lia. }
  destruct (parse_video_cases _ _ _ _ _ _ _ _ Hp)
    as [(err & _ & _ & ->)|[[_ ->]|[[_ ->]|[(p & vars & Hplat & He & _)
       |(p & e & Hplat & He & _)]]]]; try lia.
  - destruct (Hextract _ _ He) as [Hb Hone]. split; [done|].
    intros Hne. apply Hone. congruence.
  - destruct (Hextract _ _ He) as [Hb Hone]. split; [done|].
    intros Hne. apply Hone. congruence.
Qed.

Lemma retry_loop_raises `{Imports} (platform : string)
    (real_url : option string) (e : exn) :
  ∀ (k remaining : nat) (vars : Locals) (c : nat),
    (k < remaining)%nat →
    (∀ j, (j < k)%nat → finds_nothing platform real_url (c + j)) →
    create_downloader platform real_url (c + k) = Raise e →
    retry_loop remaining platform real_url vars c = (Raise e, (c + k)%nat).
Proof.
  induction k as [|k IH]; intros remaining vars c Hlt Hbefore He;
    destruct remaining as [|remaining]; try lia; cbn [retry_loop].
  - rewrite Nat.add_0_r in He. unfold extract_once. rewrite He.
    f_equal. lia.
  - destruct (Hbefore 0%nat ltac:(lia)) as (d0 & Hd0 & Hnone).
    rewrite Nat.add_0_r in Hd0.
    rewrite (extract_once_ok _ _ _ _ Hd0).
    cbn [l_video_url locals_of]. rewrite Hnone.
    rewrite (IH remaining (locals_of d0) (S c)).
    + f_equal. lia.
    + lia.
    + intros j Hj. replace (S c + j)%nat with (c + S j)%nat by lia.
      apply Hbefore. lia.
    + by replace (S c + k)%nat with (c + S k)%nat by lia.
Qed.

(** X5: the retry loop retries an empty result, not an exception.  When
    the first k attempts (k < 5) find nothing and constructing the next
    extractor raises, no further attempt is made: exactly k instances
    have been constructed and the response is the 500 error of the
    catch-all clause. *)
Theorem raising_attempt_is_not_retried `{Imports} (body : ParseRequest)
    (x_timestamp x_gclt_text x_egct_text wx_open_id : string) (c k : nat)
    (e : exn) :
  validate_request_headers x_timestamp x_gclt_text x_egct_text
    [text body] = None →
  truthy (get_url (text body)) = true →
  platform_of (text body) = Some "小红书" →
  (k < 5)%nat →
  (∀ j, (j < k)%nat →
        finds_nothing "小红书" (real_url_of (text body)) (c + j)) →
  create_downloader "小红书" (real_url_of (text body)) (c + k) = Raise e →
  parse_video body x_timestamp x_gclt_text x_egct_text wx_open_id c
    = (error_500, (c + k)%nat).
Proof.
  intros Hval Hurl Hplat Hk Hbefore He.
  rewrite (parse_video_resolves body _ _ _ wx_open_id Hval Hurl).
  unfold resolve. unfold platform_of, landing in Hplat. rewrite Hplat.
  cbn [str_truthy negb]. unfold extract.
  replace (String.eqb "小红书" "小红书") with true by done.
  change (String.eqb "小红书" "" ) with false. cbn [negb].
  unfold real_url_of, landing in *.
  by rewrite (retry_loop_raises _ _ e k max_attempts no_locals c Hk Hbefore
                He).
Qed.

Lemma raising_attempt_is_not_retried_witness :
  @parse_video (Demo.imports raises_second) Demo.xhs Demo.ts "g" "e" "Guest"
    0 = (error_500, 1%nat).
Proof.
  apply (@raising_attempt_is_not_retried (Demo.imports raises_second)
           Demo.xhs Demo.ts "g" "e" "Guest" 0%nat 1%nat RuntimeError);
    try reflexivity; [lia|].
  intros j Hj. exists Demo.nothing_found. split; [|reflexivity].
  destruct j as [|j]; [reflexivity|lia].
Defined.

(** ** The keys of the parsed record *)

Lemma base_data_dict_keys (video_id : option string) (platform : string)
    (vars : Locals) (key : string) :
  is_Some (base_data_dict video_id platform vars !! key) ↔ key ∈ base_keys.
Proof.
  unfold base_data_dict, base_keys.
  rewrite !lookup_insert, lookup_empty, !elem_of_cons, elem_of_nil.
  repeat case_decide; subst; split; intros Hk;
    first [ by eexists
          | by destruct Hk
          | intuition congruence ].
Qed.

Lemma convert_to_https_truthy (v : option string) :
  truthy v = true → truthy (convert_to_https v) = true.
Proof.
  destruct v as [s|]; [|done]. cbn.
  destruct (startswith "http://" s); done.
Qed.

(** X6: the record of a successful parse holds the five keys video_id,
    platform, title, video_url and cover_url, and at most audio_url
    besides; audio_url is there only for the platform Bilibili, and
    then it is neither null nor empty. *)
Theorem parsed_record_keys `{Imports} (body : ParseRequest)
    (x_timestamp x_gclt_text x_egct_text wx_open_id : string) (c : nat)
    (d : pydict) :
  data (content (fst (parse_video body x_timestamp x_gclt_text x_egct_text
                        wx_open_id c))) = Some d →
  (∀ key, key ∈ base_keys → is_Some (d !! key))
  ∧ (∀ key, is_Some (d !! key) → key ∈ base_keys ∨ key = "audio_url")
  ∧ (∀ a, d !! "audio_url" = Some a →
          d !! "platform" = Some (Some "哔哩哔哩") ∧ truthy a = true).
Proof.
  destruct (parse_video _ _ _ _ _ c) as [r c'] eqn:Hp. cbn [fst].
  destruct (parse_video_cases _ _ _ _ _ _ _ _ Hp)
    as [(err & Herr & -> & _)|[[-> _]|[[-> _]|[(p & vars & _ & _ & ->)
       |(p & e & _ & _ & ->)]]]]; try done.
  { destruct (validation_error_shape _ _ _ _ _ Herr) as (_ & _ & Hd).
    cbn. by rewrite Hd. }
  cbn [parsed_response make_response content data]. intros ?; simplify_eq.
  set (base := base_data_dict (get_video_id (landing (text body))) p vars).
  assert (base !! "audio_url" = None) as Hno.
  { apply eq_None_not_Some. unfold base. rewrite base_data_dict_keys.
    unfold base_keys. rewrite !elem_of_cons, elem_of_nil.
    intuition congruence. }
  assert (base !! "platform" = Some (Some p)) as Hplat.
  { unfold base, base_data_dict.
    rewrite !lookup_insert_ne by done. apply lookup_insert_eq. }
  unfold add_audio_url.
  destruct (String.eqb_spec p "哔哩哔哩") as [->|Hne];
    [destruct (l_downloader vars) as [dl|];
     [destruct (get_audio_url dl) as [audio|];
      [destruct (truthy audio) eqn:Haudio|]|]|];
    try (split; [intros key Hk; by apply base_data_dict_keys|];
         split; [intros key Hk; left; by apply base_data_dict_keys in Hk|];
         intros a Ha; congruence).
  split; [|split].
  - intros key Hk. rewrite lookup_insert. case_decide; [by eexists|].
    by apply base_data_dict_keys.
  - intros key. rewrite lookup_insert. case_decide; [by right|].
    intros Hk. left. by apply base_data_dict_keys in Hk.
  - intros a. rewrite lookup_insert_eq. intros ?; simplify_eq.
    split; [|by apply convert_to_https_truthy].
    by rewrite lookup_insert_ne.
Qed.

Lemma parsed_record_keys_witness :
  ∃ d,
    data (content (fst (@parse_video (Demo.imports with_audio) bili Demo.ts
                          "g" "e" "Guest" 0))) = Some d
    ∧ d !! "audio_url" = Some (Some "https://upos.example.com/a.m4s")
    ∧ d !! "platform" = Some (Some "哔哩哔哩").
Proof.
  eexists. split; [reflexivity|]. split; [vm_compute; reflexivity|].
  eapply (@parsed_record_keys (Demo.imports with_audio) bili Demo.ts "g" "e"
            "Guest" 0%nat _ eq_refl).
  vm_compute. reflexivity.
Defined.

(** ** What a download touches *)








(** ** The responses of the download handler *)

Lemma well_formed_success (u : string) : well_formed (success_response u).
Proof.
  unfold well_formed. cbn. split; [done|]. split; [by left|]. by split.
Qed.

Lemma well_formed_fallback (u : string) : well_formed (fallback_response u).
Proof.
  unfold well_formed. cbn. split; [done|]. split; [by left|]. by split.
Qed.

Lemma well_formed_error_response : well_formed error_response.
Proof. apply well_formed_error_500. Qed.

(** However the server-side download ends, it has sent at most one GET
    and returned one of its two responses. *)
Lemma server_side_download_outcome `{Imports} (url id : string) (io : IO)
    (n : nat) (w : World) :
  ∃ o w',
    run io n (server_side_download url id) w = (o, w')
    ∧ (fetches w ≤ fetches w' ≤ S (fetches w))%nat
    ∧ ∀ r, o = Ok r →
        r = success_response (local_url id) ∨ r = fallback_response url.
Proof.
  destruct (decide (target_path id ∈ files w)) as [Hp|Hp].
  { rewrite (core_present url id io n w Hp). eexists _, _.
    split; [done|]. split; [lia|]. intros r ?; simplify_eq. by left. }
  destruct (connect io) as [response|e] eqn:Hc.
  - destruct (core_saves url id io n w response Hp Hc) as (w' & Hf & Hs).
    destruct (save_failure io n response) as [e|].
    + destruct (save_error e).
      * destruct Hs as [-> _]. eexists _, _. split; [done|].
        split; [lia|]. intros r ?; simplify_eq. by right.
      * rewrite Hs. eexists _, _. split; [done|]. split; [lia|]. done.
    + destruct Hs as [-> _]. eexists _, _. split; [done|].
      split; [lia|]. intros r ?; simplify_eq. by left.
  - rewrite (core_connect_fails url id io n w e Hp Hc).
    destruct (connect_error e); eexists _, _; (split; [done|]);
      (split; [change (fetches (sent url w)) with (S (fetches w)); lia|]);
      [|done].
    intros r ?; simplify_eq. by right.
Qed.

(** X8: the download handler never raises: whatever the request, the
    network and the disk do, it returns a well-formed response (status
    equal to retcode among 200, 400 and 500, succ and data exactly on
    200), and it has called [session.get] at most once (how many
    requests the retrying adapter sends within that call is not
    counted). *)
Theorem download_video_always_answers `{Imports} (body : DownloadRequest)
    (x_timestamp x_gclt_text x_egct_text wx_open_id : string)
    (io : IO) (n : nat) (w : World) :
  ∃ r w',
    run io n (download_video body x_timestamp x_gclt_text x_egct_text
                wx_open_id) w = (Ok r, w')
    ∧ well_formed r
    ∧ (fetches w ≤ fetches w' ≤ S (fetches w))%nat.
Proof.
  rewrite run_download_video.
  destruct (validate_request_headers x_timestamp x_gclt_text x_egct_text
              [video_url body]) as [err|] eqn:Hval.
  { unfold download_video_body. rewrite Hval. cbn [run].
    eexists _, _. split; [done|]. split; [|lia].
    destruct (validation_error_shape _ _ _ _ _ Hval) as (? & ? & ?).
    by apply well_formed_rejection. }
  destruct (py_in (get_domain (Some (video_url body)))
              MINI_PROGRAM_LEGAL_DOMAIN) eqn:Hin.
  { unfold download_video_body. rewrite Hval, Hin. cbn [run].
    eexists _, _. split; [done|]. split; [|lia].
    apply well_formed_success. }
  rewrite (download_video_body_unfold body _ _ _ wx_open_id Hval Hin).
  destruct (server_side_download_outcome (video_url body) (video_id body)
              io n w) as (o & w' & -> & Hf & Hr).
  destruct o as [r|e].
  - eexists _, _. split; [done|]. split; [|done].
    destruct (Hr r eq_refl) as [->| ->];
      [apply well_formed_success|apply well_formed_fallback].
  - eexists _, _. split; [done|]. split; [|done].
    apply well_formed_error_response.
Qed.

(** ** What a download writes *)

(** The writes of a loop over the chunks that does not fail: the
    non-empty chunks, in their order. *)
Lemma run_save_chunks_log {A : Type} (io : IO) (path : string)
    (raises : option exn) (k : option exn → prog A) (chunks : list string) :
  ∀ n w,
    stream_failure io n chunks raises = None →
    ∃ n',
      run io n (save_chunks path chunks raises k) w
      = run io n' (k None)
          (mkWorld (files w)
             (rev (EWrite path
                     <$> filter (λ chunk, str_truthy chunk = true) chunks)
                ++ log w)).
Proof.
  induction chunks as [|chunk rest IH]; intros n w Hok;
    cbn [save_chunks stream_failure] in *.
  - exists n. subst raises. by destruct w.
  - rewrite filter_cons. destruct (str_truthy chunk) eqn:Hchunk.
    + rewrite decide_True by done. cbn [run].
      destruct (io_write io n) as [e|]; [done|].
      destruct (IH (S n) (mkWorld (files w) (EWrite path chunk :: log w))
                  Hok) as (n' & ->).
      exists n'. cbn [files log fmap list_fmap rev].
      by rewrite <- app_assoc.
    + rewrite decide_False by done. by apply IH.
Qed.

(** X9: a server-side download that does not fail calls [session.get]
    once, with the video_url and the fixed headers (the requests the
    retrying adapter sends within that call are not counted), opens the
    target path and writes to it exactly the non-empty chunks of the
    body, in their order; it removes nothing, and the file exists when
    the local URL is returned. *)
Theorem download_writes_the_body `{Imports} (body : DownloadRequest)
    (x_timestamp x_gclt_text x_egct_text wx_open_id : string)
    (io : IO) (n : nat) (w : World) (response : HttpResponse) :
  validate_request_headers x_timestamp x_gclt_text x_egct_text
    [video_url body] = None →
  py_in (get_domain (Some (video_url body))) MINI_PROGRAM_LEGAL_DOMAIN
    = false →
  target_path (video_id body) ∉ files w →
  connect io = Ok response →
  save_failure io n response = None →
  run io n (download_video body x_timestamp x_gclt_text x_egct_text
              wx_open_id) w
  = (Ok (success_response (local_url (video_id body))),
     mkWorld ({[target_path (video_id body)]} ∪ files w)
       (rev (EWrite (target_path (video_id body))
               <$> filter (λ chunk, str_truthy chunk = true)
                     (iter_content response))
          ++ EOpen (target_path (video_id body))
          :: EGet (video_url body) (download_headers (video_url body))
          :: log w)).
Proof.
  intros Hval Hin Hout Hc Hsave.
  rewrite run_download_video,
    (download_video_body_unfold body _ _ _ wx_open_id Hval Hin).
  unfold server_side_download, after_exists, after_get, after_open.
  cbn [run]. rewrite (bool_decide_eq_false_2 _ Hout). cbn [negb run].
  unfold connect in Hc. unfold save_failure in Hsave.
  destruct (io_get io) as [r|e0]; [|done].
  destruct (raise_for_status r); simplify_eq. cbn [run].
  destruct (io_open io) as [e|]; [done|].
  match goal with
  | |- context [run io n (save_chunks ?p ?cs ?rs ?k) ?w0] =>
      destruct (run_save_chunks_log io p rs k cs n w0 Hsave) as (n' & ->)
  end.
  reflexivity.
Qed.

Lemma download_writes_the_body_witness :
  run (io_ok gappy) 0
    (@download_video (Demo.imports Demo.never) Demo.remote Demo.ts "g" "e"
       "Guest") Demo.empty_world
  = (Ok (success_response "http://localhost:5001/static/videos/42.mp4"),
     mkWorld ({[ "static/videos/42.mp4" ]} ∪ ∅)
       [ EWrite "static/videos/42.mp4" "efgh";
         EWrite "static/videos/42.mp4" "abcd";
         EOpen "static/videos/42.mp4";
         EGet "https://video.example.net/v/42.mp4"
           (download_headers "https://video.example.net/v/42.mp4") ]).
Proof.
  apply (@download_writes_the_body (Demo.imports Demo.never) Demo.remote
           Demo.ts "g" "e" "Guest" (io_ok gappy) 0%nat Demo.empty_world
           gappy); try reflexivity.
  apply not_elem_of_empty.
Defined.

(** X10: an exception outside the classes the save handler names, raised
    once the target has been opened, is not cleaned up after: it reaches
    the catch-all clause, the response is the 500 error, and the file
    opened for writing is left at the target path. *)
Theorem unhandled_save_error_leaves_the_file `{Imports}
    (body : DownloadRequest)
    (x_timestamp x_gclt_text x_egct_text wx_open_id : string)
    (io : IO) (n : nat) (w : World) (response : HttpResponse) (e : exn) :
  validate_request_headers x_timestamp x_gclt_text x_egct_text
    [video_url body] = None →
  py_in (get_domain (Some (video_url body))) MINI_PROGRAM_LEGAL_DOMAIN
    = false →
  target_path (video_id body) ∉ files w →
  connect io = Ok response →
  io_open io = None →
  stream_failure io n (iter_content response) (iter_raises response)
    = Some e →
  save_error e = false →
  ∃ w',
    run io n (download_video body x_timestamp x_gclt_text x_egct_text
                wx_open_id) w = (Ok error_response, w')
    ∧ status_code error_response = 500
    ∧ target_path (video_id body) ∈ files w'.
Proof.
  intros Hval Hin Hout Hc Hopen Hstream He.
  rewrite run_download_video,
    (download_video_body_unfold body _ _ _ wx_open_id Hval Hin).
  unfold server_side_download, after_exists, after_get, after_open.
  cbn [run]. rewrite (bool_decide_eq_false_2 _ Hout). cbn [negb run].
  unfold connect in Hc.
  destruct (io_get io) as [r|e0]; [|done].
  destruct (raise_for_status r); simplify_eq. cbn [run]. rewrite Hopen.
  match goal with
  | |- context [run io n (save_chunks ?p ?cs ?rs ?k) ?w0] =>
      destruct (run_save_chunks io p rs k cs n w0)
        as (n' & w' & -> & Hfiles & _)
  end.
  rewrite Hstream. unfold after_save, on_save_error.
  unfold save_error in He. rewrite He. cbn [run].
  exists w'. split; [done|]. split; [done|].
  rewrite Hfiles. cbn [files].
  apply elem_of_union_l, elem_of_singleton. reflexivity.
Qed.

Lemma unhandled_save_error_leaves_the_file_witness :
  ∃ w',
    run second_write_breaks 0
      (@download_video (Demo.imports Demo.never) Demo.remote Demo.ts "g" "e"
         "Guest") Demo.empty_world = (Ok error_response, w')
    ∧ status_code error_response = 500
    ∧ "static/videos/42.mp4" ∈ files w'.
Proof.
  apply (@unhandled_save_error_leaves_the_file (Demo.imports Demo.never)
           Demo.remote Demo.ts "g" "e" "Guest" second_write_breaks 0%nat
           Demo.empty_world Demo.two_chunks RuntimeError);
    try reflexivity.
  apply not_elem_of_empty.
Defined.

(** X11: the headers of the server-side download do not depend on the
    video URL: the Referer sent is the one of pearvideo.com for every
    URL, beside the fixed User-Agent. *)
Theorem download_headers_are_fixed (request_video_url : string) :
  download_headers request_video_url
  = <["Referer" := "https://www.pearvideo.com/"]>
      (<["User-Agent" := user_agent]> ∅)
  ∧ download_headers request_video_url !! "Referer"
    = Some "https://www.pearvideo.com/"
  ∧ dom (download_headers request_video_url)
    = ({[ "Referer"; "User-Agent" ]} : gset string).
Proof.
  assert (download_headers request_video_url
          = <["Referer" := "https://www.pearvideo.com/"]>
              (<["User-Agent" := user_agent]> ∅)) as ->.
  { unfold download_headers.
    destruct (str_contains _ _); [|done]. apply insert_insert_eq. }
  split; [done|]. split; [apply lookup_insert_eq|].
  rewrite !dom_insert_L, dom_empty_L. by rewrite (right_id_L ∅ (∪)).
Qed.

Lemma prefix_nil (s : string) : String.prefix "" s = true.
Proof. by destruct s. Qed.

Lemma prefix_cons (a c : ascii) (s1 s2 : string) :
  String.prefix (String a s1) (String c s2)
  = if ascii_dec a c then String.prefix s1 s2 else false.
Proof. reflexivity. Qed.

Lemma prefix_append (a b : string) : String.prefix a (a +:+ b) = true.
Proof.
  induction a as [|c a IH]; [apply prefix_nil|].
  simpl. destruct (ascii_dec c c); [exact IH|congruence].
Qed.

(** X12: the target path of a video id that begins with a slash is the
    id itself with the extension: the directory of the videos is left
    out of it.  For any other video id the target path begins with the
    directory of the videos. *)
Theorem target_path_of_absolute_id `{Imports} (request_video_id : string) :
  if startswith "/" request_video_id
  then target_path request_video_id = request_video_id +:+ ".mp4"
  else String.prefix SAVE_VIDEO_PATH (target_path request_video_id) = true.
Proof.
  unfold target_path, os_path_join.
  destruct request_video_id as [|c rest].
  - change (startswith "/" "") with false.
    change (startswith "/" ("" +:+ ".mp4")) with false. cbn iota.
    destruct (_ || _); apply prefix_append.
  - assert (startswith "/" (String c rest +:+ ".mp4")
            = startswith "/" (String c rest)) as ->.
    { unfold startswith.
      change (String c rest +:+ ".mp4") with (String c (rest +:+ ".mp4")).
      rewrite !prefix_cons.
      destruct (ascii_dec "/" c); [|reflexivity].
      rewrite !prefix_nil. reflexivity. }
    destruct (startswith "/" (String c rest)); [reflexivity|].
    destruct (_ || _); apply prefix_append.
Qed.

(** ** The two servers side by side *)

(** X13: for a request that passes the validation of both servers, the
    Flask view [download] is the very program of the FastAPI handler
    [download_video]: the same operations in the same order with the
    same responses. *)
Theorem flask_download_is_the_fastapi_program `{Imports}
    (body : DownloadRequest)
    (x_timestamp x_gclt_text x_egct_text wx_open_id : string) :
  validate_request_headers x_timestamp x_gclt_text x_egct_text
    [video_url body] = None →
  validate_request (video_url body) = None →
  Flask.download (video_url body) (video_id body) wx_open_id
  = download_video body x_timestamp x_gclt_text x_egct_text wx_open_id
  ∧ ∀ io n w,
      run io n (Flask.download (video_url body) (video_id body) wx_open_id)
        w
      = run io n (download_video body x_timestamp x_gclt_text x_egct_text
                    wx_open_id) w.
Proof.
  intros Hval Hflask.
  assert (Flask.download (video_url body) (video_id body) wx_open_id
          = download_video body x_timestamp x_gclt_text x_egct_text
              wx_open_id) as ->; [|done].
  unfold Flask.download, Flask.download_body, download_video,
    download_video_body.
  by rewrite Hval, Hflask.
Qed.

Lemma flask_download_is_the_fastapi_program_witness :
  @Flask.download (Demo.imports Demo.never) (video_url Demo.remote)
    (video_id Demo.remote) "Guest"
  = @download_video (Demo.imports Demo.never) Demo.remote Demo.ts "g" "e"
      "Guest".
Proof.
  exact (proj1 (@flask_download_is_the_fastapi_program
                  (Demo.imports Demo.never) Demo.remote Demo.ts "g" "e"
                  "Guest" eq_refl eq_refl)).
Defined.

(** X14: the two servers differ on a text without a link.  The FastAPI
    handler answers it with the 400 error for a missing link and
    constructs no extractor; the Flask view has no such answer: it goes
    on with the missing URL, and whatever it returns is not that
    error.  On a text with a link the two return the same. *)
Theorem servers_differ_on_a_text_without_link `{Imports}
    (body : ParseRequest)
    (x_timestamp x_gclt_text x_egct_text wx_open_id : string) (c : nat) :
  validate_request_headers x_timestamp x_gclt_text x_egct_text
    [text body] = None →
  validate_request (text body) = None →
  if truthy (get_url (text body)) then
    Flask.parse (text body) wx_open_id c
    = parse_video body x_timestamp x_gclt_text x_egct_text wx_open_id c
  else
    parse_video body x_timestamp x_gclt_text x_egct_text wx_open_id c
      = (no_url_response, c)
    ∧ fst (Flask.parse (text body) wx_open_id c) ≠ no_url_response.
Proof.
  intros Hval Hflask. destruct (truthy (get_url (text body))) eqn:Hurl.
  - rewrite (parse_video_resolves body _ _ _ wx_open_id Hval Hurl).
    unfold Flask.parse. by rewrite Hflask.
  - split.
    + unfold parse_video, parse_video_body. by rewrite Hval, Hurl.
    + unfold Flask.parse, resolve. rewrite Hflask.
      destruct (dict_get _ _) as [platform|]; [|done].
      destruct (str_truthy platform); cbn [negb]; [|done].
      by destruct (extract _ _ _) as [[vars|e] c'].
Qed.

Lemma servers_differ_on_a_text_without_link_witness :
  @parse_video (Demo.imports Demo.never) no_link Demo.ts "g" "e" "Guest" 0
    = (no_url_response, 0%nat)
  ∧ fst (@Flask.parse (Demo.imports Demo.never) (text no_link) "Guest" 0)
    ≠ no_url_response.
Proof.
  exact (@servers_differ_on_a_text_without_link (Demo.imports Demo.never)
           no_link Demo.ts "g" "e" "Guest" 0%nat eq_refl eq_refl).
Defined.

(** ** More on merging *)

(** X15: the merge of the command-line client and the merge of the
    application do the same to the file system and succeed on the same
    inputs; they differ in what they report only. *)
Theorem client_and_application_merge_alike `{Subprocess}
    (video_path audio_path output_path : string) (fs : gset string) :
  client_bilibili.fs_after
    (snd (client_bilibili.merge_video_audio video_path audio_path
            output_path fs))
  = snd (VideoClient.merge_video_audio video_path audio_path output_path fs)
  ∧ (fst (client_bilibili.merge_video_audio video_path audio_path
            output_path fs) = Ok true
     ↔ ∃ message,
         fst (VideoClient.merge_video_audio video_path audio_path
                output_path fs) = Ok (true, message)).
Proof.
  unfold client_bilibili.merge_video_audio, VideoClient.merge_video_audio,
    client_bilibili.except_FileNotFoundError,
    VideoClient.except_FileNotFoundError, os_remove.
  destruct (subprocess_run _ fs) as [[result|e] fs1]; cbn [fst snd].
  - destruct (returncode result =? 0).
    + repeat (destruct (bool_decide _);
              cbn [fst snd client_bilibili.fs_after
                   isinstance_FileNotFoundError]);
        (split; [done|]); split; try done; try (by eexists);
        by intros [? ?].
    + cbn [fst snd client_bilibili.fs_after]. split; [done|].
      split; [done|by intros [? ?]].
  - destruct (isinstance_FileNotFoundError e);
      cbn [fst snd client_bilibili.fs_after]; (split; [done|]);
      split; try done; by intros [? ?].
Qed.

(** X16: a merge can fail after it has deleted an input.  When the tool
    exits with zero and the video track is there but the audio track is
    not there any more once the video track is removed (it is missing,
    or it is the same file), the second removal raises
    [FileNotFoundError]: the merge reports that the tool is not
    installed, although it ran, and the video track is gone. *)
Theorem merge_fails_after_deleting_the_video `{Subprocess}
    (video_path audio_path output_path : string) (fs fs1 : gset string)
    (result : CompletedProcess) :
  subprocess_run (ffmpeg_cmd video_path audio_path output_path) fs
    = (Ok result, fs1) →
  returncode result = 0 →
  video_path ∈ fs1 →
  audio_path ∉ fs1 ∖ {[video_path]} →
  VideoClient.merge_video_audio video_path audio_path output_path fs
  = (Ok (false, VideoClient.not_installed), fs1 ∖ {[video_path]})
  ∧ video_path ∉ fs1 ∖ {[video_path]}.
Proof.
  intros Hrun Hzero Hv Ha. split.
  - unfold VideoClient.merge_video_audio. rewrite Hrun, Hzero.
    cbn [Z.eqb]. rewrite (os_remove_present _ _ Hv).
    unfold os_remove. by rewrite (bool_decide_eq_false_2 _ Ha).
  - rewrite elem_of_difference, elem_of_singleton. by intros [_ []].
Qed.

Lemma merge_fails_after_deleting_the_video_witness :
  @VideoClient.merge_video_audio Demo.ffmpeg "tmp/v.m4s" "tmp/v.m4s"
    "out/merged.mp4" Demo.tracks
  = (Ok (false, VideoClient.not_installed),
     ({[ "out/merged.mp4" ]} ∪ Demo.tracks) ∖ {[ "tmp/v.m4s" ]})
  ∧ "tmp/v.m4s" ∉ ({[ "out/merged.mp4" ]} ∪ Demo.tracks) ∖ {[ "tmp/v.m4s" ]}.
Proof.
  apply (@merge_fails_after_deleting_the_video Demo.ffmpeg "tmp/v.m4s"
           "tmp/v.m4s" "out/merged.mp4" Demo.tracks
           ({[ "out/merged.mp4" ]} ∪ Demo.tracks)
           (mkCompletedProcess 0 "")).
  - reflexivity.
  - reflexivity.
  - vm_compute. reflexivity.
  - rewrite elem_of_difference, elem_of_singleton. by intros [_ []].
Defined.
